(** * btlog: the batched Loki shipping client, its buffer and the zap wrapper

    A shallow embedding of the Go packages [pkg] (the append buffer),
    [loki] (the shipping client, its flush and its HTTP transport) and
    [zap] (the logger that delegates to zap and to the shipping client),
    followed by the properties proved about them.

    Conventions of the embedding:
    - a Go [int], [int8] or [int64] is a [Z]; the one place where the
      code does arithmetic on an [int64] ([MinWaitTime + 1]) wraps
      around explicitly ([Go.add64]);
    - a Go [map] is a [gmap]; iterating over it with [range] visits the
      keys in an order the language leaves open, so the order is asked
      from the environment ([map_range]);
    - a pointer receiver that is mutated becomes explicit state passing:
      a method takes the client (and the world it acts on) and returns
      the new ones;
    - an [error] is the message it carries, [None] is Go's [nil] error;
    - everything outside the process (the HTTP server, the JSON encoder,
      the clock) is read from an environment record or passed as an
      argument. *)

From stdpp Require Import base strings gmap list pretty.
From Stdlib Require Import ZArith Lia.

Open Scope Z_scope.

(** ** Go built-ins used by the code *)

Module Go.

(** [len(s)] of a slice, as an [int]. *)
Definition len {A : Type} (s : list A) : Z := Z.of_nat (length s).

(** A slice value that may be [nil]: [None] is [nil], [Some l] a slice
    with backing contents [l]. *)
Definition slice (A : Type) : Type := option (list A).

(** [len] of a possibly-nil slice: [len(nil) = 0]. *)
Definition slice_len {A : Type} (s : slice A) : Z :=
  match s with
  | None => 0
  | Some l => len l
  end.

(** Two's-complement reduction of an integer to the [int64] range. *)
Definition wrap64 (z : Z) : Z := (z + 2 ^ 63) mod 2 ^ 64 - 2 ^ 63.

(** [x + y] on [int64]. *)
Definition add64 (x y : Z) : Z := wrap64 (x + y).

Definition MaxInt64 : Z := 2 ^ 63 - 1.
Definition MinInt64 : Z := - 2 ^ 63.

(** [strconv.FormatInt(i, 10)] and the [%d] verb: the decimal digits
    of [i], with a leading minus sign when negative. *)
Definition FormatInt (i : Z) : string := pretty i.

(** An [error] value, identified with its message; the [nil] error is
    [None] of [option error]. *)
Definition error : Type := string.

(** [make([]T, 0, cap)] does not always return: the runtime panics
    (makeslice: cap out of range) when [cap] is negative or when
    [cap] elements of [elemSize] bytes exceed what the allocator can
    address, [maxAlloc], which is 2^48 bytes on 64-bit Linux. *)
Definition maxAlloc : Z := 2 ^ 48.

Definition make_panics (elemSize cap : Z) : bool :=
  (cap <? 0) || (maxAlloc <? elemSize * cap).

End Go.

(** ** Package [pkg]: log entries and the append buffer *)

Module pkg.

(** Modelled from the spec: the declaration of [pkg.LogLevel] and of its
    constants is not part of the sources at hand.  The spec's data model
    gives [level: enum{Debug,Info,Warn,Error}], ordered in that way, and
    [pushLogWithLevel] compares a [pkg.LogLevel] with a [zapcore.Level]
    using [<], so the type is zapcore's [int8] level and the four
    constants are taken to be zapcore's values for these levels. *)
Definition LogLevel : Type := Z.
Definition LevelDebug : LogLevel := -1.
Definition LevelInfo : LogLevel := 0.
Definition LevelWarn : LogLevel := 1.
Definition LevelError : LogLevel := 2.

(** [type LogEntry struct]. [Timestamp] is an [int64] of Unix
    nanoseconds. *)
Record LogEntry : Type := mkLogEntry {
  Timestamp : Z;
  Message : string;
  Level : LogLevel
}.

(** [type Buffer struct]; the mutex only serialises [Add] and [Flush],
    which are therefore atomic state transformers here. *)
Record Buffer : Type := mkBuffer {
  entries : list LogEntry;
  size : Z
}.

(** [func NewBuffer(size int) *Buffer]: the buffer it returns.  The
    call returns only if its [make] does, see [NewBuffer_call]. *)
Definition NewBuffer (size : Z) : Buffer :=
  let size := if size <=? 0 then 100 else size in
  {| entries := []; size := size |}.

(** The size of a [LogEntry] in bytes on a 64-bit platform: an [int64],
    a string header of two words, and the level padded to a word. *)
Definition LogEntry_size : Z := 32.

(** [NewBuffer] as a call: [None] when [make([]LogEntry, 0, size)]
    panics, otherwise the buffer built. *)
Definition NewBuffer_call (size : Z) : option Buffer :=
  let size := if size <=? 0 then 100 else size in
  if Go.make_panics LogEntry_size size then None
  else Some {| entries := []; size := size |}.

(** [func (b *Buffer) Add(entry LogEntry) bool]: the new buffer and the
    returned flag. *)
Definition Add (b : Buffer) (entry : LogEntry) : Buffer * bool :=
  let b := {| entries := entries b ++ [entry]; size := size b |} in
  (b, Go.len (entries b) >=? size b).

(** [func (b *Buffer) Flush() []LogEntry]: the new buffer and the
    returned slice, [None] for the [nil] the code returns on an empty
    buffer. *)
Definition Flush (b : Buffer) : Buffer * Go.slice LogEntry :=
  if Go.len (entries b) =? 0 then (b, None)
  else
    let entries := entries b in
    ({| entries := []; size := size b |}, Some entries).

(** A run of [Add] calls, in order; the returned flags are dropped. *)
Definition AddAll (b : Buffer) (es : list LogEntry) : Buffer :=
  foldl (fun b e => fst (Add b e)) b es.

End pkg.

(** ** Package [loki]: the shipping client *)

Module loki.

(** [type Stream struct]: the label map ([Stream.Stream] in the source)
    and the values, each a [[2]string] of timestamp and message. *)
Record Stream : Type := mkStream {
  Stream_Stream : gmap string string;
  Values : list (string * string)
}.

(** [type PushRequest struct] *)
Record PushRequest : Type := mkPushRequest {
  Streams : list Stream
}.

(** The [*http.Client] a request goes through. *)
Inductive HttpClient : Type :=
  | DefaultClient
  | CustomClient (id : nat).

(** [type ClientConfig struct]. [BatchSize] is an [int], the wait times
    are [int64] seconds, [MinLevel] a [zapcore.Level]; [HTTPClient] is a
    pointer and may be [nil]. *)
Record ClientConfig : Type := mkClientConfig {
  URL : string;
  Labels : gmap string string;
  BatchSize : Z;
  MinWaitTime : Z;
  MaxWaitTime : Z;
  MinLevel : Z;
  HTTPClient : option HttpClient
}.

(** [type Client struct]. [done] is the contents of the buffered channel
    (capacity 1), the two atomic flags are booleans. *)
Record Client : Type := mkClient {
  config : ClientConfig;
  buffer : pkg.Buffer;
  done : list bool;
  httpClient : HttpClient;
  closed : bool;
  started : bool
}.

Definition set_buffer (b : pkg.Buffer) (c : Client) : Client :=
  mkClient (config c) b (done c) (httpClient c) (closed c) (started c).

Definition set_done (d : list bool) (c : Client) : Client :=
  mkClient (config c) (buffer c) d (httpClient c) (closed c) (started c).

Definition set_closed (v : bool) (c : Client) : Client :=
  mkClient (config c) (buffer c) (done c) (httpClient c) v (started c).

Definition set_started (v : bool) (c : Client) : Client :=
  mkClient (config c) (buffer c) (done c) (httpClient c) (closed c) v.

(** An HTTP request as it leaves the process. *)
Record HttpRequest : Type := mkHttpRequest {
  req_client : HttpClient;
  req_method : string;
  req_url : string;
  req_contentType : string;
  req_body : string
}.

(** What the code reads of an [*http.Response]: the status code and the
    body as [io.ReadAll] returns it. *)
Record Response : Type := mkResponse {
  StatusCode : Z;
  Body : string
}.

(** What the client does to the outside: the HTTP requests issued, the
    lines written with the standard [log] package, and the number of
    [worker] goroutines spawned. *)
Record World : Type := mkWorld {
  http_log : list HttpRequest;
  diag_log : list string;
  spawned : nat
}.

Definition log_request (r : HttpRequest) (w : World) : World :=
  mkWorld (http_log w ++ [r]) (diag_log w) (spawned w).

Definition log_Printf (line : string) (w : World) : World :=
  mkWorld (http_log w) (diag_log w ++ [line]) (spawned w).

Definition spawn_worker (w : World) : World :=
  mkWorld (http_log w) (diag_log w) (S (spawned w)).

(** The environment of a client.
    - [LevelToString] is [pkg.LevelToString], whose source is not at
      hand: it is taken as a parameter, the canonical name of a level
      being whatever it returns.
    - [json_Marshal] is [encoding/json.Marshal] on a push request:
      the encoded bytes ([inl]) or an error ([inr]).
    - [http_Post client url contentType body] is the answer the server
      gives to [client.Post]: a response ([inl]) or a transport error
      ([inr]).
    - [map_range] is the order in which a [range] over the level groups
      visits them. *)
Record Env : Type := mkEnv {
  LevelToString : pkg.LogLevel -> string;
  json_Marshal : PushRequest -> string + Go.error;
  http_Post : HttpClient -> string -> string -> string -> Response + Go.error;
  map_range :
    gmap pkg.LogLevel (list (string * string)) ->
    list (pkg.LogLevel * list (string * string))
}.

(** [range] visits every key of the map once, in some order. *)
Definition range_visits_each_once (rt : Env) : Prop :=
  forall m, map_range rt m ≡ₚ map_to_list m.

(** [func NewClient(config ClientConfig)], returning the client or the error *)
Definition NewClient (config : ClientConfig) : Client + Go.error :=
  if String.eqb (URL config) "" then inr "URL is required"%string
  else
    let BatchSize := if BatchSize config =? 0 then 100 else BatchSize config in
    let MinWaitTime := if MinWaitTime config =? 0 then 1 else MinWaitTime config in
    let MaxWaitTime := if MaxWaitTime config =? 0 then 10 else MaxWaitTime config in
    let MaxWaitTime :=
      if MaxWaitTime <=? MinWaitTime then Go.add64 MinWaitTime 1 else MaxWaitTime in
    let config :=
      mkClientConfig (URL config) (Labels config) BatchSize MinWaitTime MaxWaitTime
        (MinLevel config) (HTTPClient config) in
    let httpClient :=
      match HTTPClient config with
      | None => DefaultClient
      | Some h => h
      end in
    inl {| config := config;
           buffer := pkg.NewBuffer BatchSize;
           done := [];
           httpClient := httpClient;
           closed := false;
           started := false |}.

(** [NewClient] as a call: the error for an empty URL, [None] when the
    [make] inside [pkg.NewBuffer] panics, and otherwise the client
    [NewClient] builds. *)
Definition NewClient_call (config : ClientConfig) : option (Client + Go.error) :=
  if String.eqb (URL config) "" then Some (inr "URL is required"%string)
  else
    let BatchSize := if BatchSize config =? 0 then 100 else BatchSize config in
    match pkg.NewBuffer_call BatchSize with
    | None => None
    | Some _ => Some (NewClient config)
    end.

(** [func (c *Client) send(req PushRequest) error] *)
Definition send (rt : Env) (c : Client) (w : World) (req : PushRequest)
  : World * option Go.error :=
  match json_Marshal rt req with
  | inr err => (w, Some ("marshal request failed: " +:+ err))
  | inl data =>
      let url := URL (config c) +:+ "/loki/api/v1/push" in
      let w := log_request (mkHttpRequest (httpClient c) "POST" url "application/json" data) w in
      match http_Post rt (httpClient c) url "application/json" data with
      | inr err => (w, Some ("send request failed: " +:+ err))
      | inl resp =>
          if negb (StatusCode resp =? 204) then
            (w, Some ("unexpected status code: " +:+ Go.FormatInt (StatusCode resp)
                        +:+ ", body: " +:+ Body resp))
          else (w, None)
      end
  end.

(** The first loop of [flush]: [levelGroups[entry.Level] =
    append(levelGroups[entry.Level], [2]string{...})] for each entry. *)
Definition group_entry (levelGroups : gmap pkg.LogLevel (list (string * string)))
    (entry : pkg.LogEntry) : gmap pkg.LogLevel (list (string * string)) :=
  <[pkg.Level entry :=
      default [] (levelGroups !! pkg.Level entry)
        ++ [(Go.FormatInt (pkg.Timestamp entry), pkg.Message entry)]]> levelGroups.

Definition group_by_level (entries : list pkg.LogEntry)
  : gmap pkg.LogLevel (list (string * string)) :=
  foldl group_entry ∅ entries.

(** The label map built for one level: a copy of the configured labels,
    key by key, then the [detected_level] label. *)
Definition stream_labels (rt : Env) (c : Client) (level : pkg.LogLevel)
  : gmap string string :=
  let labels := map_fold (fun k v labels => <[k := v]> labels) ∅ (Labels (config c)) in
  <["detected_level"%string := LevelToString rt level]> labels.

(** The second loop of [flush]: one stream appended per visited group. *)
Definition build_streams (rt : Env) (c : Client)
    (levelGroups : gmap pkg.LogLevel (list (string * string))) : list Stream :=
  foldl (fun streams '(level, values) =>
           streams ++ [mkStream (stream_labels rt c level) values])
        [] (map_range rt levelGroups).

(** [func (c *Client) flush()] *)
Definition flush (rt : Env) (c : Client) (w : World) : Client * World :=
  let '(b, entries) := pkg.Flush (buffer c) in
  let c := set_buffer b c in
  if Go.slice_len entries =? 0 then (c, w)
  else
    let levelGroups := group_by_level (default [] entries) in
    let streams := build_streams rt c levelGroups in
    let req := mkPushRequest streams in
    match send rt c w req with
    | (w, Some err) => (c, log_Printf ("Failed to send logs to Loki: " +:+ err) w)
    | (w, None) => (c, w)
    end.

(** [func (c *Client) pushLogWithLevel(message string, level pkg.LogLevel) error];
    [now] is the value [time.Now().UnixNano()] reads. *)
Definition pushLogWithLevel (rt : Env) (c : Client) (w : World)
    (message : string) (level : pkg.LogLevel) (now : Z)
  : Client * World * option Go.error :=
  if closed c then (c, w, Some "client is closed"%string)
  else if negb (started c) then (c, w, Some "client is not started"%string)
  else if level <? MinLevel (config c) then (c, w, None)
  else
    let entry := pkg.mkLogEntry now message level in
    let '(b, full) := pkg.Add (buffer c) entry in
    let c := set_buffer b c in
    let '(c, w) := if full then flush rt c w else (c, w) in
    (c, w, None).

(** The four public submit operations. *)
Definition Debug (rt : Env) (c : Client) (w : World) (message : string) (now : Z) :=
  pushLogWithLevel rt c w message pkg.LevelDebug now.

Definition Info (rt : Env) (c : Client) (w : World) (message : string) (now : Z) :=
  pushLogWithLevel rt c w message pkg.LevelInfo now.

Definition Warn (rt : Env) (c : Client) (w : World) (message : string) (now : Z) :=
  pushLogWithLevel rt c w message pkg.LevelWarn now.

Definition Error (rt : Env) (c : Client) (w : World) (message : string) (now : Z) :=
  pushLogWithLevel rt c w message pkg.LevelError now.

(** [func (c *Client) Start()]: [started.Swap(true)] returns the old
    value and leaves the flag set. *)
Definition Start (c : Client) (w : World) : Client * World :=
  let old := started c in
  let c := set_started true c in
  if old then (c, w)
  else (c, spawn_worker w).

(** [func (c *Client) Stop()]. The [||] short-circuits: [closed] is only
    swapped when [started] is set.  The final [time.Sleep] has no effect
    on the state. *)
Definition Stop (rt : Env) (c : Client) (w : World) : Client * World :=
  if negb (started c) then (c, w)
  else
    let old := closed c in
    let c := set_closed true c in
    if old then (c, w)
    else
      let '(c, w) := flush rt c w in
      (set_done (done c ++ [true]) c, w).

(** One turn of the [select] in [worker]. [since] is what
    [time.Since(lastFlush)] reads, [now] the following [time.Now()];
    the result carries the new [lastFlush], or [None] once the worker
    has returned. *)
Inductive WorkerEvent : Type :=
  | DoneSignal
  | Tick.

Definition Second : Z := 1000000000.

Definition worker_turn (rt : Env) (ev : WorkerEvent) (since now lastFlush : Z)
    (c : Client) (w : World) : Client * World * option Z :=
  match ev with
  | DoneSignal =>
      match done c with
      | [] => (c, w, Some lastFlush)
      | _ :: rest =>
          let c := set_done rest c in
          let '(c, w) := if since >? 0 then flush rt c w else (c, w) in
          (c, w, None)
      end
  | Tick =>
      if since >=? Go.wrap64 (Second * MaxWaitTime (config c)) then
        let '(c, w) := flush rt c w in
        (c, w, Some now)
      else (c, w, Some lastFlush)
  end.

(** The operations that act on a client, for stating what holds after
    any sequence of them. *)
Inductive Op : Type :=
  | OpPush (message : string) (level : pkg.LogLevel) (now : Z)
  | OpStart
  | OpStop
  | OpWorker (ev : WorkerEvent) (since now lastFlush : Z).

Definition run_op (rt : Env) (s : Client * World) (op : Op) : Client * World :=
  let '(c, w) := s in
  match op with
  | OpPush message level now => fst (pushLogWithLevel rt c w message level now)
  | OpStart => Start c w
  | OpStop => Stop rt c w
  | OpWorker ev since now lastFlush => fst (worker_turn rt ev since now lastFlush c w)
  end.

Definition run_ops (rt : Env) (s : Client * World) (ops : list Op) : Client * World :=
  foldl (run_op rt) s ops.

End loki.

(** ** Package [zap]: the logger that delegates to zap and to the client *)

Module zap.

(** The levels of the embedded [*zap.Logger], one per overridden method. *)
Inductive Level : Type :=
  | DebugLevel
  | InfoLevel
  | WarnLevel
  | ErrorLevel
  | DPanicLevel
  | PanicLevel
  | FatalLevel.

(** What a call of the wrapper does, in the order it does it: a call of
    the embedded zap logger's method, or a call of the shipping client
    (with the level of the client method and the formatted message). *)
Inductive Event (Field : Type) : Type :=
  | Local (lvl : Level) (msg : string) (fields : list Field)
  | Remote (level : pkg.LogLevel) (msg : string).

Arguments Local {Field} lvl msg fields.
Arguments Remote {Field} level msg.

(** The environment of the wrapper, over the type of zap's fields.
    - [fields_JSON] is [json.Marshal] of the fields once added to a map
      encoder: the JSON text ([inl]) or an error ([inr]).
    - [local_returns lvl] tells whether the embedded logger's method
      for [lvl] returns to the wrapper (zap's [Fatal] exits the process
      and its [Panic] panics, so they do not). *)
Record Env (Field : Type) : Type := mkEnv {
  fields_JSON : list Field -> string + Go.error;
  local_returns : Level -> bool
}.

Arguments fields_JSON {Field} _ _.
Arguments local_returns {Field} _ _.

(** [type Logger struct]: of the three fields only [lokiClient] (which
    may be [nil]) carries state the methods below touch. *)
Record Logger : Type := mkLogger {
  lokiClient : option loki.Client
}.

(** A logger together with the world its client acts on and the calls
    it has made so far. *)
Record State (Field : Type) : Type := mkState {
  logger : Logger;
  world : loki.World;
  trace : list (Event Field)
}.

Arguments mkState {Field} logger world trace.
Arguments logger {Field} _.
Arguments world {Field} _.
Arguments trace {Field} _.

Section Methods.

Variable Field : Type.
Variable rt : loki.Env.
Variable zrt : Env Field.

(** [func formatMessage(msg string, fields []zap.Field) string] *)
Definition formatMessage (msg : string) (fields : list Field) : string :=
  if Go.len fields =? 0 then msg
  else
    match fields_JSON zrt fields with
    | inr _ => msg
    | inl fieldsJSON => msg +:+ " " +:+ fieldsJSON
    end.

(** [l.Logger.<Method>(msg, fields...)] *)
Definition call_local (lvl : Level) (msg : string) (fields : list Field)
    (st : State Field) : State Field :=
  mkState (logger st) (world st) (trace st ++ [Local lvl msg fields]).

(** [if l.lokiClient != nil { formattedMsg := formatMessage(msg, fields);
    _ = l.lokiClient.<Method>(formattedMsg) }]; the client's error is
    discarded. *)
Definition call_remote
    (submit : loki.Env -> loki.Client -> loki.World -> string -> Z ->
              loki.Client * loki.World * option Go.error)
    (level : pkg.LogLevel) (msg : string) (fields : list Field) (now : Z)
    (st : State Field) : State Field :=
  match lokiClient (logger st) with
  | None => st
  | Some c =>
      let formattedMsg := formatMessage msg fields in
      let '(c, w, _) := submit rt c (world st) formattedMsg now in
      mkState (mkLogger (Some c)) w (trace st ++ [Remote level formattedMsg])
  end.

(** The six methods that delegate first and ship afterwards; the
    statements after the delegation only run if it returns. *)
Definition local_then_remote (lvl : Level)
    (submit : loki.Env -> loki.Client -> loki.World -> string -> Z ->
              loki.Client * loki.World * option Go.error)
    (level : pkg.LogLevel) (msg : string) (fields : list Field) (now : Z)
    (st : State Field) : State Field :=
  let st := call_local lvl msg fields st in
  if local_returns zrt lvl then call_remote submit level msg fields now st
  else st.

Definition Debug := local_then_remote DebugLevel loki.Debug pkg.LevelDebug.
Definition Info := local_then_remote InfoLevel loki.Info pkg.LevelInfo.
Definition Warn := local_then_remote WarnLevel loki.Warn pkg.LevelWarn.
Definition Error := local_then_remote ErrorLevel loki.Error pkg.LevelError.
Definition DPanic := local_then_remote DPanicLevel loki.Error pkg.LevelError.
Definition Panic := local_then_remote PanicLevel loki.Error pkg.LevelError.

(** [func (l *Logger) Fatal]: the client first, then the embedded
    logger. *)
Definition Fatal (msg : string) (fields : list Field) (now : Z)
    (st : State Field) : State Field :=
  let st := call_remote loki.Error pkg.LevelError msg fields now st in
  call_local FatalLevel msg fields st.

(** The wrapper method for a level. *)
Definition log (lvl : Level) : string -> list Field -> Z -> State Field -> State Field :=
  match lvl with
  | DebugLevel => Debug
  | InfoLevel => Info
  | WarnLevel => Warn
  | ErrorLevel => Error
  | DPanicLevel => DPanic
  | PanicLevel => Panic
  | FatalLevel => Fatal
  end.

(** The client method each wrapper method ships through, as the level
    the entry is submitted with. *)
Definition shipped_level (lvl : Level) : pkg.LogLevel :=
  match lvl with
  | DebugLevel => pkg.LevelDebug
  | InfoLevel => pkg.LevelInfo
  | WarnLevel => pkg.LevelWarn
  | _ => pkg.LevelError
  end.

End Methods.

Arguments formatMessage {Field} zrt msg fields.
Arguments call_local {Field} lvl msg fields st.
Arguments call_remote {Field} rt zrt submit level msg fields now st.
Arguments local_then_remote {Field} rt zrt lvl submit level msg fields now st.
Arguments Debug {Field} rt zrt msg fields now st.
Arguments Info {Field} rt zrt msg fields now st.
Arguments Warn {Field} rt zrt msg fields now st.
Arguments Error {Field} rt zrt msg fields now st.
Arguments DPanic {Field} rt zrt msg fields now st.
Arguments Panic {Field} rt zrt msg fields now st.
Arguments Fatal {Field} rt zrt msg fields now st.
Arguments log {Field} rt zrt lvl _ _ _ _.

(** [type LokiConfig struct]. [Timeout] is declared in seconds; no
    function reads it. *)
Record LokiConfig : Type := mkLokiConfig {
  URL : string;
  BatchSize : Z;
  Labels : gmap string string;
  Timeout : Z;
  HTTPClient : option loki.HttpClient
}.

(** [type Config struct]; the field holding the [LokiConfig] is named
    [LokiConfig] in the source. *)
Record Config : Type := mkConfig {
  EnableConsole : bool;
  EnableFile : bool;
  EnableLoki : bool;
  ConsoleLevel : Z;
  FileLevel : Z;
  LokiLevel : Z;
  EnableCaller : bool;
  FilePath : string;
  MaxSize : Z;
  MaxBackups : Z;
  MaxAge : Z;
  Compress : bool;
  Config_LokiConfig : LokiConfig
}.

(** The [lumberjack.Logger] that [NewLogger] fills in for file output. *)
Record Lumberjack : Type := mkLumberjack {
  lj_Filename : string;
  lj_MaxSize : Z;
  lj_MaxBackups : Z;
  lj_MaxAge : Z;
  lj_Compress : bool
}.

(** What a [zapcore.NewCore(encoder, writer, level)] is made of: the
    encoder with the configuration it was built from (zap's production
    preset with the time encoder set, or its development preset), the
    writer and the minimum level. *)
Inductive TimeEncoder : Type :=
  | RFC3339TimeEncoder
  | ISO8601TimeEncoder.

Inductive EncoderConfig : Type :=
  | ProductionEncoderConfig (EncodeTime : TimeEncoder)
  | DevelopmentEncoderConfig.

Inductive Encoder : Type :=
  | ConsoleEncoder (cfg : EncoderConfig)
  | JSONEncoder (cfg : EncoderConfig).

Inductive WriteSyncer : Type :=
  | Stdout
  | FileWriter (f : Lumberjack).

Record Core : Type := mkCore {
  core_encoder : Encoder;
  core_writer : WriteSyncer;
  core_level : Z
}.

Inductive ZapOption : Type :=
  | AddCaller
  | AddCallerSkip (skip : Z).

(** [zap.New(zapcore.NewTee(cores...), opts...)] *)
Record ZapLogger : Type := mkZapLogger {
  zap_cores : list Core;
  zap_opts : list ZapOption
}.

(** The [*Logger] that [NewLogger] returns: the [lokiClient] field (the
    record [Logger] above) together with the embedded zap logger and the
    [fileLogger] field, which may be [nil]. *)
Record Built : Type := mkBuilt {
  built_logger : Logger;
  built_zap : ZapLogger;
  built_file : option Lumberjack
}.

(** [func NewLogger(cfg *Config)], returning the logger or the error;
    the world is threaded because [Start] spawns the worker. *)
Definition NewLogger (cfg : Config) (w : loki.World) : Built * loki.World + Go.error :=
  let cores : list Core := [] in
  let encoderConfig := ProductionEncoderConfig RFC3339TimeEncoder in
  let cores :=
    if EnableConsole cfg
    then cores ++ [mkCore (ConsoleEncoder encoderConfig) Stdout (ConsoleLevel cfg)]
    else cores in
  let '(fileLogger, cores) :=
    if EnableFile cfg then
      let fileLogger :=
        mkLumberjack (FilePath cfg) (MaxSize cfg) (MaxBackups cfg)
          (MaxAge cfg) (Compress cfg) in
      (Some fileLogger,
       cores ++ [mkCore (JSONEncoder encoderConfig) (FileWriter fileLogger) (FileLevel cfg)])
    else (None, cores) in
  let opts := if EnableCaller cfg then [AddCaller; AddCallerSkip 1] else [] in
  let finish (lokiClient : option loki.Client) (w : loki.World) :=
    inl (mkBuilt (mkLogger lokiClient) (mkZapLogger cores opts) fileLogger, w) in
  if EnableLoki cfg then
    match loki.NewClient
            (loki.mkClientConfig (URL (Config_LokiConfig cfg))
               (Labels (Config_LokiConfig cfg)) (BatchSize (Config_LokiConfig cfg))
               1 10 (LokiLevel cfg) (HTTPClient (Config_LokiConfig cfg))) with
    | inr err => inr ("创建 Loki 客户端失败: " +:+ err)
    | inl lokiClient =>
        let '(lokiClient, w) := loki.Start lokiClient w in
        finish (Some lokiClient) w
    end
  else finish None w.

(** [NewLogger] as a call: [None] when the [NewClient] it calls panics,
    and otherwise what [NewLogger] returns. *)
Definition NewLogger_call (cfg : Config) (w : loki.World)
  : option (Built * loki.World + Go.error) :=
  if EnableLoki cfg then
    match loki.NewClient_call
            (loki.mkClientConfig (URL (Config_LokiConfig cfg))
               (Labels (Config_LokiConfig cfg)) (BatchSize (Config_LokiConfig cfg))
               1 10 (LokiLevel cfg) (HTTPClient (Config_LokiConfig cfg))) with
    | None => None
    | Some _ => Some (NewLogger cfg w)
    end
  else Some (NewLogger cfg w).

(** The steps of [Close], in the order it takes them. *)
Inductive CloseStep : Type :=
  | StepSync
  | StepStop
  | StepFileClose.

(** [func (l *Logger) Close() error]. [sync_err] is what
    [l.Logger.Sync()] returns, [fileLogger] the field of that name; the
    error of the file's [Close] is discarded. *)
Definition Close {Field : Type} (rt : loki.Env) (sync_err : option Go.error)
    (fileLogger : option Lumberjack) (st : State Field)
  : State Field * list CloseStep * option Go.error :=
  let err := sync_err in
  let steps := [StepSync] in
  let '(st, steps) :=
    match lokiClient (logger st) with
    | Some c =>
        let '(c, w) := loki.Stop rt c (world st) in
        (mkState (mkLogger (Some c)) w (trace st), steps ++ [StepStop])
    | None => (st, steps)
    end in
  let steps :=
    match fileLogger with
    | Some _ => steps ++ [StepFileClose]
    | None => steps
    end in
  (st, steps, err).

End zap.

(** ** Package [btlog]: the package-level logger *)

Module btlog.

(** [type Config struct] of the package-level logger: no switch for the
    file output, and no Loki output. *)
Record Config : Type := mkConfig {
  EnableConsole : bool;
  ConsoleLevel : Z;
  FileLevel : Z;
  EnableCaller : bool;
  FilePath : string;
  MaxSize : Z;
  MaxBackups : Z;
  MaxAge : Z;
  Compress : bool
}.

(** The two package variables, [nil] until [InitLogger] runs. *)
Record Globals : Type := mkGlobals {
  logger : option zap.ZapLogger;
  hook : option zap.Lumberjack
}.

Definition uninitialised : Globals := mkGlobals None None.

(** What [Close] does to the outside, in order. *)
Inductive Effect : Type :=
  | Synced (l : zap.ZapLogger)
  | HookClosed (h : zap.Lumberjack).

(** What the two library calls return: [logger.Sync()] and
    [hook.Close()], each an error or [nil]. *)
Record Env : Type := mkEnv {
  zap_Sync : zap.ZapLogger -> option Go.error;
  hook_Close : zap.Lumberjack -> option Go.error
}.

(** [func InitLogger(cfg *Config) error]: the new package variables and
    the returned error. *)
Definition InitLogger (cfg : Config) (g : Globals) : Globals * option Go.error :=
  let hook :=
    zap.mkLumberjack (FilePath cfg) (MaxSize cfg) (MaxBackups cfg) (MaxAge cfg)
      (Compress cfg) in
  let consoleEncoder := zap.ConsoleEncoder zap.DevelopmentEncoderConfig in
  let encoderConfig := zap.ProductionEncoderConfig zap.ISO8601TimeEncoder in
  let fileEncoder := zap.JSONEncoder encoderConfig in
  let cores : list zap.Core := [] in
  let cores :=
    if EnableConsole cfg
    then cores ++ [zap.mkCore consoleEncoder zap.Stdout (ConsoleLevel cfg)]
    else cores in
  let cores := cores ++ [zap.mkCore fileEncoder (zap.FileWriter hook) (FileLevel cfg)] in
  let opts : list zap.ZapOption := [] in
  let opts :=
    if EnableCaller cfg then opts ++ [zap.AddCaller; zap.AddCallerSkip 1] else opts in
  (mkGlobals (Some (zap.mkZapLogger cores opts)) (Some hook), None).

(** [func sync() error] *)
Definition sync (env : Env) (g : Globals) : list Effect * option Go.error :=
  match logger g with
  | Some l => ([Synced l], zap_Sync env l)
  | None => ([], None)
  end.

(** [func Close() error] *)
Definition Close (env : Env) (g : Globals) : list Effect * option Go.error :=
  match sync env g with
  | (fx, Some err) => (fx, Some err)
  | (fx, None) =>
      match hook g with
      | Some h => (fx ++ [HookClosed h], hook_Close env h)
      | None => (fx, None)
      end
  end.

End btlog.

(** ** Overlapping submits: the buffer as the goroutines share it *)

Module shared.

(** The mutex of the buffer makes each [Add] and each [Flush] atomic,
    and nothing more: between the [Add] of a submit that returned true
    and the [flush] this submit then calls ([if c.buffer.Add(entry) {
    c.flush() }]), other goroutines take their turns.  [owed] counts
    the submits that are in this window. *)
Record State : Type := mkState {
  buffer : pkg.Buffer;
  owed : nat
}.

(** The atomic steps on the buffer: the [Add] of a submit, the
    [Buffer.Flush] of a submit whose [Add] returned true, and the
    [Buffer.Flush] of any other [flush] (a worker tick, [Stop], the
    worker's last turn). *)
Inductive Step : Type :=
  | StepAdd (entry : pkg.LogEntry)
  | StepOwedFlush
  | StepOtherFlush.

Definition step (s : State) (st : Step) : State :=
  match st with
  | StepAdd entry =>
      let '(b, full) := pkg.Add (buffer s) entry in
      mkState b (if full then S (owed s) else owed s)
  | StepOwedFlush =>
      match owed s with
      | O => s
      | S n => mkState (fst (pkg.Flush (buffer s))) n
      end
  | StepOtherFlush => mkState (fst (pkg.Flush (buffer s))) (owed s)
  end.

(** Any interleaving of such steps, from a new buffer. *)
Definition run (size : Z) (steps : list Step) : State :=
  foldl step (mkState (pkg.NewBuffer size) 0) steps.

End shared.

(** ** Vocabulary of the statements *)



(** The wire form of an entry: its timestamp in decimal, and its
    message. *)
Definition render (e : pkg.LogEntry) : string * string :=
  (Go.FormatInt (pkg.Timestamp e), pkg.Message e).

(** The entries of a batch that carry a given level, in batch order. *)
Definition entries_at (level : pkg.LogLevel) (es : list pkg.LogEntry) : list pkg.LogEntry :=
  filter (fun e => pkg.Level e = level) es.

(** The stream of a level: the configured labels with [detected_level]
    set to the level's name, and the level's entries in wire form. *)
Definition level_stream (rt : loki.Env) (c : loki.Client) (es : list pkg.LogEntry)
    (level : pkg.LogLevel) : loki.Stream :=
  loki.mkStream
    (<["detected_level"%string := loki.LevelToString rt level]> (loki.Labels (loki.config c)))
    (render <$> entries_at level es).

(** The client once its buffer has been drained. *)
Definition drained (c : loki.Client) : loki.Client :=
  loki.set_buffer (pkg.mkBuffer [] (pkg.size (loki.buffer c))) c.

(** The push request [flush] builds from the entries the client holds. *)
Definition flush_request (rt : loki.Env) (c : loki.Client) : loki.PushRequest :=
  loki.mkPushRequest
    (loki.build_streams rt (drained c) (loki.group_by_level (pkg.entries (loki.buffer c)))).

(** The contents of the [done] channel fit its capacity: it is empty
    until the client is closed, and holds at most one value afterwards. *)
Definition done_within_capacity (c : loki.Client) : Prop :=
  (length (loki.done c) <= if loki.closed c then 1 else 0)%nat.

(** Whether an operation is a [Start], and whether it is a submit. *)
Definition is_Start (op : loki.Op) : bool :=
  match op with
  | loki.OpStart => true
  | _ => false
  end.

Definition is_Push (op : loki.Op) : bool :=
  match op with
  | loki.OpPush _ _ _ => true
  | _ => false
  end.

(** A submit to make: message, level, and the clock's reading. *)
Definition push_op (p : string * pkg.LogLevel * Z) : loki.Op :=
  loki.OpPush (fst (fst p)) (snd (fst p)) (snd p).

(** The entry [pushLogWithLevel] builds for a submit. *)
Definition push_entry (p : string * pkg.LogLevel * Z) : pkg.LogEntry :=
  pkg.mkLogEntry (snd p) (fst (fst p)) (snd (fst p)).

(** All the values held in the groups of a map. *)
Definition group_values (groups : gmap pkg.LogLevel (list (string * string)))
  : list (string * string) :=
  concat (map_to_list groups).*2.

(** All the values a request carries, stream after stream. *)
Definition request_values (req : loki.PushRequest) : list (string * string) :=
  concat (loki.Values <$> loki.Streams req).

(** ** Concrete instances, to run the definitions on *)

(** A concrete environment, used to run the definitions on examples:
    levels are named as zap prints them, the encoder always yields the
    same body, the server answers 204 to everything, and [range] visits
    the keys in the order [map_to_list] lists them. *)
Definition demo_LevelToString (level : pkg.LogLevel) : string :=
  if level =? pkg.LevelDebug then "debug"
  else if level =? pkg.LevelInfo then "info"
  else if level =? pkg.LevelWarn then "warn"
  else if level =? pkg.LevelError then "error"
  else "unknown".

Definition demo_env : loki.Env :=
  loki.mkEnv demo_LevelToString
    (fun _ => inl "{}"%string)
    (fun _ _ _ _ => inl (loki.mkResponse 204 ""))
    map_to_list.

(** The same, with a server that answers 500. *)
Definition failing_env : loki.Env :=
  loki.mkEnv demo_LevelToString
    (fun _ => inl "{}"%string)
    (fun _ _ _ _ => inl (loki.mkResponse 500 "boom"))
    map_to_list.

(** A wrapper environment for examples: fields are strings, already in
    JSON; every embedded call returns except [Panic] and [Fatal]. *)
Definition demo_zap_env : zap.Env string :=
  zap.mkEnv string
    (fun fields => inl (String.concat "," fields))
    (fun lvl => match lvl with zap.PanicLevel | zap.FatalLevel => false | _ => true end).

Definition demo_config : loki.ClientConfig :=
  loki.mkClientConfig "http://loki:3100" {[ "service_name"%string := "demo"%string ]}
    2 0 0 pkg.LevelInfo None.

Definition empty_world : loki.World := loki.mkWorld [] [] 0.

(** The demo client: what [NewClient] builds from [demo_config]. *)
Definition demo_client : loki.Client :=
  loki.mkClient
    (loki.mkClientConfig "http://loki:3100" {[ "service_name"%string := "demo"%string ]}
       2 1 10 pkg.LevelInfo None)
    (pkg.NewBuffer 2) [] loki.DefaultClient false false.

(** The demo client after [Start]. *)
Definition demo_started : loki.Client := fst (loki.Start demo_client empty_world).

(** A started client holding one entry. *)
Definition demo_loaded : loki.Client :=
  loki.set_buffer (pkg.mkBuffer [pkg.mkLogEntry 5 "a" pkg.LevelInfo] 2) demo_started.

(** A started client holding the mixed batch of the spec's example:
    Info, Error, Info. *)
Definition demo_mixed : loki.Client :=
  loki.set_buffer
    (pkg.mkBuffer
       [pkg.mkLogEntry 1 "a" pkg.LevelInfo;
        pkg.mkLogEntry 2 "b" pkg.LevelError;
        pkg.mkLogEntry 3 "c" pkg.LevelInfo] 5)
    demo_started.

(** A wrapper configuration with console and Loki output. *)
Definition demo_zap_config : zap.Config :=
  zap.mkConfig true false true 0 0 pkg.LevelInfo true "./logs/app.log" 100 3 28 true
    (zap.mkLokiConfig "http://loki:3100" 100
       {[ "service_name"%string := "demo"%string ]} 0 None).

(** * Properties *)

(** ** Go arithmetic and formatting *)

Lemma wrap64_in_range (z : Z) :
  Go.MinInt64 <= z <= Go.MaxInt64 -> Go.wrap64 z = z.
Proof.
  unfold Go.wrap64, Go.MinInt64, Go.MaxInt64. intros Hz.
  rewrite Z.mod_small; lia.
Qed.

Lemma add64_succ (z : Z) :
  Go.MinInt64 <= z < Go.MaxInt64 -> Go.add64 z 1 = z + 1.
Proof.
  intros Hz. unfold Go.add64. apply wrap64_in_range. lia.
Qed.

(** At the top of the range the successor wraps to the bottom. *)
Lemma add64_MaxInt64 : Go.add64 Go.MaxInt64 1 = Go.MinInt64.
Proof. reflexivity. Qed.

Lemma FormatInt_inj (i j : Z) : Go.FormatInt i = Go.FormatInt j -> i = j.
Proof. unfold Go.FormatInt. apply (inj pretty). Qed.

Example FormatInt_nanos :
  Go.FormatInt 1700000000123456789 = "1700000000123456789"%string
  /\ Go.FormatInt (-42) = "-42"%string
  /\ Go.FormatInt 0 = "0"%string.
Proof. repeat split; reflexivity. Qed.

Lemma len_nil_iff {A : Type} (l : list A) : (Go.len l =? 0) = true <-> l = [].
Proof.
  unfold Go.len. rewrite Z.eqb_eq. destruct l as [|x l]; simpl; split;
    intros H; try reflexivity; try lia; discriminate.
Qed.

(** ** The buffer *)

Section BufferFacts.

Implicit Types (b : pkg.Buffer) (e : pkg.LogEntry) (es : list pkg.LogEntry).

Lemma Add_entries b e : pkg.entries (fst (pkg.Add b e)) = pkg.entries b ++ [e].
Proof. reflexivity. Qed.

Lemma Add_size b e : pkg.size (fst (pkg.Add b e)) = pkg.size b.
Proof. reflexivity. Qed.

Lemma AddAll_snoc b es e :
  pkg.AddAll b (es ++ [e]) = fst (pkg.Add (pkg.AddAll b es) e).
Proof. unfold pkg.AddAll. now rewrite foldl_app. Qed.

Lemma AddAll_entries b es :
  pkg.entries (pkg.AddAll b es) = pkg.entries b ++ es.
Proof.
  induction es as [|e es IH] using rev_ind.
  - simpl. now rewrite app_nil_r.
  - rewrite AddAll_snoc, Add_entries, IH. now rewrite <- app_assoc.
Qed.

Lemma AddAll_size b es : pkg.size (pkg.AddAll b es) = pkg.size b.
Proof.
  induction es as [|e es IH] using rev_ind; [reflexivity|].
  now rewrite AddAll_snoc, Add_size.
Qed.

Lemma Flush_empty b :
  pkg.entries b = [] -> pkg.Flush b = (b, None).
Proof.
  intros H. unfold pkg.Flush. now rewrite H.
Qed.

Lemma Flush_nonempty b :
  pkg.entries b <> [] ->
  pkg.Flush b = (pkg.mkBuffer [] (pkg.size b), Some (pkg.entries b)).
Proof.
  intros H. unfold pkg.Flush.
  destruct (Go.len (pkg.entries b) =? 0) eqn:E; [|reflexivity].
  apply len_nil_iff in E. contradiction.
Qed.

(** Whatever the buffer holds, [Flush] leaves it empty and with the
    same threshold. *)
Lemma Flush_leaves_empty b :
  fst (pkg.Flush b) = pkg.mkBuffer [] (pkg.size b).
Proof.
  destruct b as [es n]. destruct es as [|e es]; reflexivity.
Qed.

(** The slice [Flush] returns is [nil] exactly on an empty buffer, and
    is otherwise the (non-empty) contents. *)
Lemma Flush_result b :
  snd (pkg.Flush b) = match pkg.entries b with [] => None | _ :: _ => Some (pkg.entries b) end.
Proof.
  destruct b as [es n]. destruct es as [|e es]; reflexivity.
Qed.

End BufferFacts.

(** C3: [Add] appends the entry (and keeps the threshold), and returns
    true if and only if the length after the append is at least the
    buffer's threshold; with a threshold of 3 the first two adds return
    false and the third returns true. *)
Theorem Buffer_Add_threshold :
  (forall (b : pkg.Buffer) (e : pkg.LogEntry),
      pkg.entries (fst (pkg.Add b e)) = pkg.entries b ++ [e]
      /\ pkg.size (fst (pkg.Add b e)) = pkg.size b
      /\ (snd (pkg.Add b e) = true
          <-> pkg.size b <= Go.len (pkg.entries (fst (pkg.Add b e)))))
  /\ (forall e1 e2 e3 : pkg.LogEntry,
        let b0 := pkg.NewBuffer 3 in
        let b1 := fst (pkg.Add b0 e1) in
        let b2 := fst (pkg.Add b1 e2) in
        snd (pkg.Add b0 e1) = false
        /\ snd (pkg.Add b1 e2) = false
        /\ snd (pkg.Add b2 e3) = true).
Proof.
  split.
  - intros b e. repeat split.
    + unfold pkg.Add. simpl. intros H. apply Z.geb_le in H. exact H.
    + unfold pkg.Add. simpl. intros H. apply Z.geb_le. exact H.
  - intros e1 e2 e3. repeat split.
Qed.

(** C2: after any run of [Add] calls on a buffer that was just built or
    just flushed, [Flush] returns exactly the added entries, in order,
    and leaves the buffer empty; with no add in between it returns
    [nil] (which no non-empty run yields), and the client's [flush]
    then changes neither the client nor the world: no request is
    issued. *)
Theorem Buffer_Flush_returns_added
    (rt : loki.Env) (b0 : pkg.Buffer) (es : list pkg.LogEntry) :
  (exists n, b0 = pkg.NewBuffer n) \/ (exists b, b0 = fst (pkg.Flush b)) ->
  pkg.Flush (pkg.AddAll b0 es)
    = (b0, match es with [] => None | _ :: _ => Some es end)
  /\ pkg.entries (fst (pkg.Flush (pkg.AddAll b0 es))) = []
  /\ (snd (pkg.Flush (pkg.AddAll b0 es)) = None <-> es = [])
  /\ (forall (c : loki.Client) (w : loki.World),
        loki.buffer c = b0 -> loki.flush rt c w = (c, w)).
Proof.
  intros Hfresh.
  assert (Hb0 : b0 = pkg.mkBuffer [] (pkg.size b0)).
  { destruct Hfresh as [[n ->] | [b ->]]; [reflexivity|].
    rewrite Flush_leaves_empty. reflexivity. }
  assert (Hflush : pkg.Flush (pkg.AddAll b0 es)
                   = (b0, match es with [] => None | _ :: _ => Some es end)).
  { destruct es as [|e es].
    - simpl. apply Flush_empty. now rewrite Hb0.
    - rewrite Flush_nonempty.
      + rewrite AddAll_size, AddAll_entries. rewrite Hb0 at 2 3. reflexivity.
      + rewrite AddAll_entries. rewrite Hb0. simpl. discriminate.
  }
  split; [exact Hflush|]. rewrite Hflush. simpl. split; [now rewrite Hb0|].
  split.
  - destruct es; split; intros H; try reflexivity; discriminate.
  - intros c w Hc. unfold loki.flush. rewrite Hc.
    rewrite (Flush_empty b0) by now rewrite Hb0.
    simpl. destruct c; simpl in *. now subst.
Qed.

Lemma Buffer_Flush_returns_added_witness :
  let e1 := pkg.mkLogEntry 10 "a" pkg.LevelInfo in
  let e2 := pkg.mkLogEntry 11 "b" pkg.LevelError in
  pkg.Flush (pkg.AddAll (pkg.NewBuffer 5) [e1; e2]) = (pkg.NewBuffer 5, Some [e1; e2])
  /\ pkg.entries (fst (pkg.Flush (pkg.AddAll (pkg.NewBuffer 5) [e1; e2]))) = []
  /\ (snd (pkg.Flush (pkg.AddAll (pkg.NewBuffer 5) [e1; e2])) = None <-> [e1; e2] = [])
  /\ (forall (c : loki.Client) (w : loki.World),
        loki.buffer c = pkg.NewBuffer 5 -> loki.flush demo_env c w = (c, w)).
Proof.
  intros e1 e2.
  apply (Buffer_Flush_returns_added demo_env (pkg.NewBuffer 5) [e1; e2]).
  left. exists 5. reflexivity.
Defined.

(** ** Construction *)


(** When the call returns, it returns what [NewClient] builds. *)
Lemma NewClient_call_returns (cfg : loki.ClientConfig) (r : loki.Client + Go.error) :
  loki.NewClient_call cfg = Some r -> r = loki.NewClient cfg.
Proof.
  unfold loki.NewClient_call, loki.NewClient.
  destruct (String.eqb (loki.URL cfg) ""); [now intros [= <-]|].
  destruct (pkg.NewBuffer_call _); [now intros [= <-]|discriminate].
Qed.




(** Whenever the minimum wait is an [int64] below the largest one, the
    forced maximum is the mathematical successor and so exceeds the
    minimum. *)
Lemma NewClient_max_exceeds_min (cfg : loki.ClientConfig) (c : loki.Client) :
  loki.NewClient cfg = inl c ->
  Go.MinInt64 <= loki.MinWaitTime cfg < Go.MaxInt64 ->
  loki.MinWaitTime (loki.config c) < loki.MaxWaitTime (loki.config c).
Proof.
  unfold loki.NewClient. destruct (String.eqb _ _); [discriminate|].
  intros [= <-] Hr. simpl.
  assert (Hmin : Go.MinInt64 <= (if loki.MinWaitTime cfg =? 0 then 1 else loki.MinWaitTime cfg)
                 < Go.MaxInt64).
  { destruct (Z.eqb_spec (loki.MinWaitTime cfg) 0); [|exact Hr].
    unfold Go.MinInt64, Go.MaxInt64. lia. }
  destruct (Z.leb_spec (if loki.MaxWaitTime cfg =? 0 then 10 else loki.MaxWaitTime cfg)
              (if loki.MinWaitTime cfg =? 0 then 1 else loki.MinWaitTime cfg)).
  - rewrite add64_succ by exact Hmin. lia.
  - lia.
Qed.

(** At the largest [int64] the sum wraps around: the stored maximum is
    then the smallest [int64]. *)
Example NewClient_max_wraps :
  exists c : loki.Client,
    loki.NewClient
      (loki.mkClientConfig "http://loki:3100" ∅ 0 Go.MaxInt64 5 pkg.LevelInfo None) = inl c
    /\ loki.MaxWaitTime (loki.config c) = Go.MinInt64.
Proof. eexists. split; reflexivity. Qed.

(** ** What [flush] does to the client *)

Section ClientFacts.

Variable rt : loki.Env.

Implicit Types (c : loki.Client) (w : loki.World).

(** Whatever the transport answers, [flush] changes the client only by
    draining its buffer. *)
Lemma flush_client c w :
  fst (loki.flush rt c w)
  = loki.set_buffer (pkg.mkBuffer [] (pkg.size (loki.buffer c))) c.
Proof.
  unfold loki.flush.
  rewrite (surjective_pairing (pkg.Flush (loki.buffer c))).
  rewrite Flush_leaves_empty.
  destruct (Go.slice_len _ =? 0); [reflexivity|].
  destruct (loki.send _ _ _ _) as [w' [err|]]; reflexivity.
Qed.

Lemma flush_closed c w : loki.closed (fst (loki.flush rt c w)) = loki.closed c.
Proof. now rewrite flush_client. Qed.

Lemma flush_started c w : loki.started (fst (loki.flush rt c w)) = loki.started c.
Proof. now rewrite flush_client. Qed.

Lemma flush_spawned c w :
  loki.spawned (snd (loki.flush rt c w)) = loki.spawned w.
Proof.
  unfold loki.flush.
  rewrite (surjective_pairing (pkg.Flush (loki.buffer c))).
  destruct (Go.slice_len _ =? 0); [reflexivity|].
  unfold loki.send.
  destruct (loki.json_Marshal _ _); [|reflexivity].
  destruct (loki.http_Post _ _ _ _ _); [|reflexivity].
  destruct (negb _); reflexivity.
Qed.

(** The value a submit returns is read off the two lifecycle flags. *)
Lemma pushLogWithLevel_result c w message level now :
  snd (loki.pushLogWithLevel rt c w message level now)
  = if loki.closed c then Some "client is closed"%string
    else if negb (loki.started c) then Some "client is not started"%string
    else None.
Proof.
  unfold loki.pushLogWithLevel.
  destruct (loki.closed c); [reflexivity|].
  destruct (negb (loki.started c)); [reflexivity|].
  destruct (level <? _); [reflexivity|].
  rewrite (surjective_pairing (pkg.Add _ _)).
  destruct (snd (pkg.Add _ _)).
  - rewrite (surjective_pairing (loki.flush _ _ _)). reflexivity.
  - reflexivity.
Qed.

Lemma pushLogWithLevel_flags c w message level now :
  let c' := fst (fst (loki.pushLogWithLevel rt c w message level now)) in
  loki.closed c' = loki.closed c /\ loki.started c' = loki.started c.
Proof.
  unfold loki.pushLogWithLevel.
  destruct (loki.closed c) eqn:Hc; [simpl; now rewrite Hc|].
  destruct (negb (loki.started c)); [simpl; now rewrite Hc|].
  destruct (level <? _); [simpl; now rewrite Hc|].
  rewrite (surjective_pairing (pkg.Add _ _)).
  destruct (snd (pkg.Add _ _)).
  - rewrite (surjective_pairing (loki.flush _ _ _)). simpl.
    rewrite flush_closed, flush_started. simpl. now rewrite Hc.
  - simpl. now rewrite Hc.
Qed.

Lemma Start_flags c w :
  loki.started (fst (loki.Start c w)) = true
  /\ loki.closed (fst (loki.Start c w)) = loki.closed c.
Proof. unfold loki.Start. destruct (loki.started c); split; reflexivity. Qed.

Lemma Stop_started c w :
  loki.started (fst (loki.Stop rt c w)) = loki.started c.
Proof.
  unfold loki.Stop. destruct (negb (loki.started c)); [reflexivity|].
  destruct (loki.closed c); [reflexivity|].
  rewrite (surjective_pairing (loki.flush _ _ _)). simpl.
  now rewrite flush_started.
Qed.

(** [Stop] sets [closed] exactly when the client has been started. *)
Lemma Stop_closed c w :
  loki.closed (fst (loki.Stop rt c w)) = loki.closed c || loki.started c.
Proof.
  unfold loki.Stop. destruct (loki.started c); simpl.
  - destruct (loki.closed c); [reflexivity|].
    rewrite (surjective_pairing (loki.flush _ _ _)). simpl.
    now rewrite flush_closed.
  - now rewrite orb_false_r.
Qed.

Lemma worker_turn_flags ev since now lastFlush c w :
  let c' := fst (fst (loki.worker_turn rt ev since now lastFlush c w)) in
  loki.closed c' = loki.closed c /\ loki.started c' = loki.started c.
Proof.
  unfold loki.worker_turn. destruct ev.
  - destruct (loki.done c); [split; reflexivity|].
    destruct (since >? 0).
    + rewrite (surjective_pairing (loki.flush _ _ _)). simpl.
      now rewrite flush_closed, flush_started.
    + split; reflexivity.
  - destruct (since >=? _).
    + rewrite (surjective_pairing (loki.flush _ _ _)). simpl.
      now rewrite flush_closed, flush_started.
    + split; reflexivity.
Qed.

(** No operation resets [closed], and only [Stop] on a started client
    sets it. *)
Lemma run_op_closed (s : loki.Client * loki.World) (op : loki.Op) :
  loki.closed (fst (loki.run_op rt s op))
  = match op with
    | loki.OpStop => loki.closed (fst s) || loki.started (fst s)
    | _ => loki.closed (fst s)
    end.
Proof.
  destruct s as [c w]. destruct op; simpl.
  - apply pushLogWithLevel_flags.
  - apply Start_flags.
  - apply Stop_closed.
  - apply worker_turn_flags.
Qed.

(** No operation resets [started], and only [Start] sets it. *)
Lemma run_op_started (s : loki.Client * loki.World) (op : loki.Op) :
  loki.started (fst (loki.run_op rt s op))
  = match op with
    | loki.OpStart => true
    | _ => loki.started (fst s)
    end.
Proof.
  destruct s as [c w]. destruct op; simpl.
  - apply pushLogWithLevel_flags.
  - apply Start_flags.
  - apply Stop_started.
  - apply worker_turn_flags.
Qed.

Lemma run_ops_snoc (s : loki.Client * loki.World) (ops : list loki.Op) (op : loki.Op) :
  loki.run_ops rt s (ops ++ [op]) = loki.run_op rt (loki.run_ops rt s ops) op.
Proof. unfold loki.run_ops. now rewrite foldl_app. Qed.

Lemma run_ops_app (s : loki.Client * loki.World) (ops1 ops2 : list loki.Op) :
  loki.run_ops rt s (ops1 ++ ops2) = loki.run_ops rt (loki.run_ops rt s ops1) ops2.
Proof. unfold loki.run_ops. now rewrite foldl_app. Qed.

(** [closed] is monotone along any run. *)
Lemma run_ops_closed_mono (s : loki.Client * loki.World) (ops : list loki.Op) :
  loki.closed (fst s) = true -> loki.closed (fst (loki.run_ops rt s ops)) = true.
Proof.
  intros Hs. induction ops as [|op ops IH] using rev_ind; [exact Hs|].
  rewrite run_ops_snoc, run_op_closed, IH. now destruct op.
Qed.

(** [started] is monotone along any run. *)
Lemma run_ops_started_mono (s : loki.Client * loki.World) (ops : list loki.Op) :
  loki.started (fst s) = true -> loki.started (fst (loki.run_ops rt s ops)) = true.
Proof.
  intros Hs. induction ops as [|op ops IH] using rev_ind; [exact Hs|].
  rewrite run_ops_snoc, run_op_started, IH. now destruct op.
Qed.

(** Without a [Start], a run leaves both flags as they were when unset. *)
Lemma run_ops_never_started (s : loki.Client * loki.World) (ops : list loki.Op) :
  loki.started (fst s) = false -> loki.closed (fst s) = false ->
  Forall (fun op => op <> loki.OpStart) ops ->
  loki.started (fst (loki.run_ops rt s ops)) = false
  /\ loki.closed (fst (loki.run_ops rt s ops)) = false.
Proof.
  intros Hs Hc. induction ops as [|op ops IH] using rev_ind; intros Hops.
  - now split.
  - apply Forall_app in Hops as [Hops Hop]. apply Forall_inv in Hop.
    destruct (IH Hops) as [IHs IHc].
    rewrite run_ops_snoc, run_op_closed, run_op_started, IHs, IHc.
    destruct op; try (split; reflexivity). contradiction.
Qed.

(** The [done] channel never holds more than the one value its capacity
    allows, so the send in [Stop] does not block. *)
Lemma flush_done c w : loki.done (fst (loki.flush rt c w)) = loki.done c.
Proof. now rewrite flush_client. Qed.

Lemma run_op_done_within_capacity (s : loki.Client * loki.World) (op : loki.Op) :
  done_within_capacity (fst s) -> done_within_capacity (fst (loki.run_op rt s op)).
Proof.
  destruct s as [c w]. unfold done_within_capacity. simpl. intros Hc.
  destruct op as [message level now| | |ev since now lastFlush]; simpl.
  - destruct (pushLogWithLevel_flags c w message level now) as [-> _].
    unfold loki.pushLogWithLevel.
    destruct (loki.closed c); [exact Hc|].
    destruct (negb (loki.started c)); [exact Hc|].
    destruct (level <? _); [exact Hc|].
    rewrite (surjective_pairing (pkg.Add _ _)).
    destruct (snd (pkg.Add _ _)); [|exact Hc].
    rewrite (surjective_pairing (loki.flush _ _ _)). simpl.
    now rewrite flush_done.
  - unfold loki.Start. destruct (loki.started c); exact Hc.
  - unfold loki.Stop. destruct (negb (loki.started c)); [exact Hc|].
    destruct (loki.closed c) eqn:E; simpl; [exact Hc|].
    rewrite (surjective_pairing (loki.flush _ _ _)). simpl.
    rewrite flush_closed, flush_done. simpl.
    rewrite length_app. simpl. lia.
  - destruct (worker_turn_flags ev since now lastFlush c w) as [-> _].
    unfold loki.worker_turn. destruct ev.
    + destruct (loki.done c) as [|d rest] eqn:E; [simpl; now rewrite E|].
      simpl in Hc.
      destruct (since >? 0).
      * rewrite (surjective_pairing (loki.flush _ _ _)). simpl.
        rewrite flush_done. simpl. destruct (loki.closed c); lia.
      * simpl. destruct (loki.closed c); lia.
    + destruct (since >=? _); [|exact Hc].
      rewrite (surjective_pairing (loki.flush _ _ _)). simpl.
      now rewrite flush_done.
Qed.

Lemma run_ops_done_within_capacity (cfg : loki.ClientConfig) (c : loki.Client)
    (w : loki.World) (ops : list loki.Op) :
  loki.NewClient cfg = inl c ->
  (length (loki.done (fst (loki.run_ops rt (c, w) ops))) <= 1)%nat.
Proof.
  intros Hnew.
  assert (H : done_within_capacity (fst (loki.run_ops rt (c, w) ops))).
  { induction ops as [|op ops IH] using rev_ind.
    - unfold loki.NewClient in Hnew. destruct (String.eqb _ _); [discriminate|].
      injection Hnew as <-. unfold done_within_capacity. simpl. lia.
    - rewrite run_ops_snoc. now apply run_op_done_within_capacity. }
  unfold done_within_capacity in H.
  destruct (loki.closed _) in H; lia.
Qed.

(** However often [Start] is called, one worker is spawned: the count of
    spawned workers follows the [started] flag. *)
Lemma run_op_spawned (s : loki.Client * loki.World) (op : loki.Op) :
  (loki.spawned (snd (loki.run_op rt s op)) + (if loki.started (fst s) then 1 else 0)
   = loki.spawned (snd s)
     + (if loki.started (fst (loki.run_op rt s op)) then 1 else 0))%nat.
Proof.
  rewrite run_op_started. destruct s as [c w].
  destruct op as [message level now| | |ev since now lastFlush]; simpl.
  - f_equal. unfold loki.pushLogWithLevel.
    destruct (loki.closed c); [reflexivity|].
    destruct (negb (loki.started c)); [reflexivity|].
    destruct (level <? _); [reflexivity|].
    rewrite (surjective_pairing (pkg.Add _ _)).
    destruct (snd (pkg.Add _ _)); [|reflexivity].
    rewrite (surjective_pairing (loki.flush _ _ _)). simpl.
    apply flush_spawned.
  - unfold loki.Start. destruct (loki.started c); simpl; lia.
  - f_equal. unfold loki.Stop. destruct (negb (loki.started c)); [reflexivity|].
    destruct (loki.closed c); [reflexivity|].
    rewrite (surjective_pairing (loki.flush _ _ _)). simpl.
    apply flush_spawned.
  - f_equal. unfold loki.worker_turn. destruct ev.
    + destruct (loki.done c); [reflexivity|].
      destruct (since >? 0); [|reflexivity].
      rewrite (surjective_pairing (loki.flush _ _ _)). simpl.
      apply flush_spawned.
    + destruct (since >=? _); [|reflexivity].
      rewrite (surjective_pairing (loki.flush _ _ _)). simpl.
      apply flush_spawned.
Qed.

Lemma run_ops_spawned (cfg : loki.ClientConfig) (c : loki.Client)
    (w : loki.World) (ops : list loki.Op) :
  loki.NewClient cfg = inl c ->
  loki.spawned (snd (loki.run_ops rt (c, w) ops))
  = (loki.spawned w
     + if loki.started (fst (loki.run_ops rt (c, w) ops)) then 1 else 0)%nat.
Proof.
  intros Hnew.
  assert (Hs : loki.started c = false).
  { unfold loki.NewClient in Hnew. destruct (String.eqb _ _); [discriminate|].
    now injection Hnew as <-. }
  induction ops as [|op ops IH] using rev_ind.
  - simpl. rewrite Hs. lia.
  - rewrite run_ops_snoc.
    pose proof (run_op_spawned (loki.run_ops rt (c, w) ops) op) as H.
    rewrite IH in H.
    destruct (loki.started (fst (loki.run_ops rt (c, w) ops)));
      destruct (loki.started (fst (loki.run_op rt (loki.run_ops rt (c, w) ops) op))); lia.
Qed.

End ClientFacts.

(** ** Lifecycle *)

Lemma push_closed (rt : loki.Env) (c : loki.Client) (w : loki.World)
    (message : string) (level : pkg.LogLevel) (now : Z) :
  loki.closed c = true ->
  loki.pushLogWithLevel rt c w message level now
  = (c, w, Some "client is closed"%string).
Proof. intros H. unfold loki.pushLogWithLevel. now rewrite H. Qed.

Lemma push_not_started (rt : loki.Env) (c : loki.Client) (w : loki.World)
    (message : string) (level : pkg.LogLevel) (now : Z) :
  loki.closed c = false -> loki.started c = false ->
  loki.pushLogWithLevel rt c w message level now
  = (c, w, Some "client is not started"%string).
Proof. intros Hc Hs. unfold loki.pushLogWithLevel. now rewrite Hc, Hs. Qed.

(** Each public submit operation is [pushLogWithLevel] at some level. *)
Lemma submit_is_push
    (submit : loki.Env -> loki.Client -> loki.World -> string -> Z ->
              loki.Client * loki.World * option Go.error) :
  In submit [loki.Debug; loki.Info; loki.Warn; loki.Error] ->
  exists level, forall rt c w message now,
      submit rt c w message now = loki.pushLogWithLevel rt c w message level now.
Proof.
  simpl. intros [<- | [<- | [<- | [<- | []]]]].
  - now exists pkg.LevelDebug.
  - now exists pkg.LevelInfo.
  - now exists pkg.LevelWarn.
  - now exists pkg.LevelError.
Qed.

(** C4: once a client has been started and, later, stopped, every
    submit made afterwards -- whatever happened in between and since --
    returns the error "client is closed" and leaves the client (its
    buffer included) and the world as they were; on a client that was
    built and never started the error is "client is not started", with
    the same absence of effect.  Both checks come before the append. *)
Theorem stopped_client_rejects_submit (rt : loki.Env)
    (submit : loki.Env -> loki.Client -> loki.World -> string -> Z ->
              loki.Client * loki.World * option Go.error)
    (message : string) (now : Z) :
  In submit [loki.Debug; loki.Info; loki.Warn; loki.Error] ->
  (forall (c : loki.Client) (w : loki.World) (ops1 ops2 : list loki.Op),
      let s := loki.run_ops rt (c, w) (loki.OpStart :: ops1 ++ loki.OpStop :: ops2) in
      submit rt (fst s) (snd s) message now
      = (fst s, snd s, Some "client is closed"%string))
  /\ (forall (cfg : loki.ClientConfig) (c : loki.Client) (w : loki.World)
             (ops : list loki.Op),
        loki.NewClient cfg = inl c ->
        Forall (fun op => op <> loki.OpStart) ops ->
        let s := loki.run_ops rt (c, w) ops in
        submit rt (fst s) (snd s) message now
        = (fst s, snd s, Some "client is not started"%string)).
Proof.
  intros Hin. destruct (submit_is_push submit Hin) as [level Hsub]. split.
  - intros c w ops1 ops2 s. rewrite Hsub. apply push_closed.
    subst s. change (loki.OpStart :: ops1 ++ loki.OpStop :: ops2)
      with ([loki.OpStart] ++ ops1 ++ [loki.OpStop] ++ ops2).
    rewrite !run_ops_app. apply run_ops_closed_mono.
    change (loki.run_ops rt ?s [loki.OpStop]) with (loki.run_op rt s loki.OpStop).
    rewrite run_op_closed. rewrite run_ops_started_mono; [apply orb_true_r|].
    change (loki.run_ops rt ?s [loki.OpStart]) with (loki.run_op rt s loki.OpStart).
    now rewrite run_op_started.
  - intros cfg c w ops Hnew Hops s. rewrite Hsub.
    assert (Hc : loki.started c = false /\ loki.closed c = false).
    { unfold loki.NewClient in Hnew. destruct (String.eqb _ _); [discriminate|].
      injection Hnew as <-. now split. }
    destruct (run_ops_never_started rt (c, w) ops) as [Hs' Hc']; try tauto.
    now apply push_not_started.
Qed.

Example demo_client_is_new : loki.NewClient demo_config = inl demo_client.
Proof. reflexivity. Qed.

Lemma stopped_client_rejects_submit_witness :
  (forall (c : loki.Client) (w : loki.World) (ops1 ops2 : list loki.Op),
      let s := loki.run_ops demo_env (c, w) (loki.OpStart :: ops1 ++ loki.OpStop :: ops2) in
      loki.Info demo_env (fst s) (snd s) "late" 7
      = (fst s, snd s, Some "client is closed"%string))
  /\ (forall (cfg : loki.ClientConfig) (c : loki.Client) (w : loki.World)
             (ops : list loki.Op),
        loki.NewClient cfg = inl c ->
        Forall (fun op => op <> loki.OpStart) ops ->
        let s := loki.run_ops demo_env (c, w) ops in
        loki.Info demo_env (fst s) (snd s) "late" 7
        = (fst s, snd s, Some "client is not started"%string)).
Proof.
  apply (stopped_client_rejects_submit demo_env loki.Info "late" 7).
  simpl. right. left. reflexivity.
Defined.

(** A run of the model on the demo client: started, fed one entry,
    stopped (which flushes it), then submitted to again. *)
Example stopped_demo_client :
  let s := loki.run_ops demo_env (demo_client, empty_world)
             [loki.OpStart; loki.OpPush "a" pkg.LevelInfo 1; loki.OpStop] in
  loki.closed (fst s) = true
  /\ pkg.entries (loki.buffer (fst s)) = []
  /\ length (loki.http_log (snd s)) = 1%nat
  /\ loki.Error demo_env (fst s) (snd s) "late" 2
     = (fst s, snd s, Some "client is closed"%string).
Proof. vm_compute. repeat split. Qed.

(** C5: on a started client that is not closed, a submit whose level is
    strictly below the configured minimum returns no error and leaves
    the client and the world untouched: the entry never reaches the
    buffer, whose contents (and length) stay as they were.  With a
    minimum of Info this is the case of every Debug submit. *)
Theorem below_min_level_dropped (rt : loki.Env) (c : loki.Client) (w : loki.World)
    (message : string) (level : pkg.LogLevel) (now : Z) :
  loki.closed c = false ->
  loki.started c = true ->
  level < loki.MinLevel (loki.config c) ->
  loki.pushLogWithLevel rt c w message level now = (c, w, None)
  /\ (let c' := fst (fst (loki.pushLogWithLevel rt c w message level now)) in
      Go.len (pkg.entries (loki.buffer c')) = Go.len (pkg.entries (loki.buffer c)))
  /\ (loki.MinLevel (loki.config c) = pkg.LevelInfo ->
      loki.Debug rt c w message now = (c, w, None)).
Proof.
  intros Hc Hs Hlt.
  assert (Hdrop : forall l, l < loki.MinLevel (loki.config c) ->
                            loki.pushLogWithLevel rt c w message l now = (c, w, None)).
  { intros l Hl. unfold loki.pushLogWithLevel. rewrite Hc, Hs. simpl.
    apply Z.ltb_lt in Hl. now rewrite Hl. }
  split; [now apply Hdrop|]. split.
  - now rewrite Hdrop.
  - intros Hmin. apply Hdrop. rewrite Hmin. reflexivity.
Qed.

Lemma below_min_level_dropped_witness :
  loki.pushLogWithLevel demo_env demo_started empty_world "x" pkg.LevelDebug 1
  = (demo_started, empty_world, None)
  /\ (let c' := fst (fst (loki.pushLogWithLevel demo_env demo_started empty_world
                            "x" pkg.LevelDebug 1)) in
      Go.len (pkg.entries (loki.buffer c')) = Go.len (pkg.entries (loki.buffer demo_started)))
  /\ (loki.MinLevel (loki.config demo_started) = pkg.LevelInfo ->
      loki.Debug demo_env demo_started empty_world "x" 1 = (demo_started, empty_world, None)).
Proof.
  apply (below_min_level_dropped demo_env demo_started empty_world "x" pkg.LevelDebug 1).
  - reflexivity.
  - reflexivity.
  - reflexivity.
Defined.

(** A submit at or above the minimum level goes through [Add], and
    through [flush] when [Add] reports a full buffer. *)
Lemma push_accepted (rt : loki.Env) (c : loki.Client) (w : loki.World)
    (message : string) (level : pkg.LogLevel) (now : Z) :
  loki.closed c = false ->
  loki.started c = true ->
  loki.MinLevel (loki.config c) <= level ->
  loki.pushLogWithLevel rt c w message level now
  = (let entry := pkg.mkLogEntry now message level in
     let c1 := loki.set_buffer (fst (pkg.Add (loki.buffer c) entry)) c in
     if snd (pkg.Add (loki.buffer c) entry) then loki.flush rt c1 w else (c1, w),
     None).
Proof.
  intros Hc Hs Hle. unfold loki.pushLogWithLevel. rewrite Hc, Hs. simpl.
  destruct (Z.ltb_spec level (loki.MinLevel (loki.config c))); [lia|].
  destruct (Go.len _ >=? _).
  - now rewrite (surjective_pairing (loki.flush _ _ _)).
  - reflexivity.
Qed.

(** The end-to-end scenario of the spec: threshold 2, minimum level
    Info; a Debug submit is dropped, a first Info submit is buffered, a
    second one triggers a flush that sends one request and empties the
    buffer. *)
Example end_to_end_scenario :
  let s1 := fst (loki.Debug demo_env demo_started empty_world "x" 1) in
  let s2 := fst (loki.Info demo_env (fst s1) (snd s1) "a" 2) in
  let s3 := fst (loki.Info demo_env (fst s2) (snd s2) "b" 3) in
  pkg.entries (loki.buffer (fst s1)) = []
  /\ pkg.entries (loki.buffer (fst s2)) = [pkg.mkLogEntry 2 "a" pkg.LevelInfo]
  /\ loki.http_log (snd s2) = []
  /\ pkg.entries (loki.buffer (fst s3)) = []
  /\ length (loki.http_log (snd s3)) = 1%nat
  /\ loki.diag_log (snd s3) = [].
Proof. vm_compute. repeat split. Qed.

(** C10: on a client that was built and not started, any number of
    [Stop] calls changes nothing, so [closed] stays unset; the [Start]
    that follows sets [started] and spawns the worker, and every submit
    made after it returns no error -- at or above the minimum level the
    entry is handed to the buffer.  In general a step sets [closed] only
    if it is a [Stop] on a client whose [started] flag is set. *)
Theorem Stop_before_Start_keeps_open (rt : loki.Env) (cfg : loki.ClientConfig)
    (c : loki.Client) (w : loki.World) (n : nat) :
  loki.NewClient cfg = inl c ->
  let s0 := loki.run_ops rt (c, w) (repeat loki.OpStop n) in
  let s1 := loki.Start (fst s0) (snd s0) in
  s0 = (c, w)
  /\ loki.closed (fst s0) = false
  /\ loki.started (fst s1) = true
  /\ loki.closed (fst s1) = false
  /\ loki.spawned (snd s1) = S (loki.spawned w)
  /\ (forall (message : string) (level : pkg.LogLevel) (now : Z),
        snd (loki.pushLogWithLevel rt (fst s1) (snd s1) message level now) = None
        /\ (loki.MinLevel (loki.config (fst s1)) <= level ->
            fst (loki.pushLogWithLevel rt (fst s1) (snd s1) message level now)
            = (let entry := pkg.mkLogEntry now message level in
               let c1 := loki.set_buffer (fst (pkg.Add (loki.buffer (fst s1)) entry)) (fst s1) in
               if snd (pkg.Add (loki.buffer (fst s1)) entry)
               then loki.flush rt c1 (snd s1) else (c1, snd s1))))
  /\ (forall (s : loki.Client * loki.World) (op : loki.Op),
        loki.closed (fst s) = false ->
        loki.closed (fst (loki.run_op rt s op)) = true ->
        op = loki.OpStop /\ loki.started (fst s) = true).
Proof.
  intros Hnew.
  assert (Hc : loki.started c = false /\ loki.closed c = false).
  { unfold loki.NewClient in Hnew. destruct (String.eqb _ _); [discriminate|].
    injection Hnew as <-. now split. }
  destruct Hc as [Hs Hc].
  assert (H0 : loki.run_ops rt (c, w) (repeat loki.OpStop n) = (c, w)).
  { induction n as [|n IH]; [reflexivity|].
    simpl. unfold loki.Stop. rewrite Hs. simpl. exact IH. }
  rewrite H0. simpl.
  assert (Hstart : loki.Start c w = (loki.set_started true c, loki.spawn_worker w)).
  { unfold loki.Start. now rewrite Hs. }
  rewrite Hstart. simpl.
  repeat (split; [first [reflexivity | assumption]|]).
  split.
  - intros message level now. split.
    + rewrite pushLogWithLevel_result. simpl. now rewrite Hc.
    + intros Hle. rewrite push_accepted; [reflexivity|exact Hc|reflexivity|exact Hle].
  - intros s op Hs0 Hs1. rewrite run_op_closed in Hs1.
    destruct op; try congruence.
    split; [reflexivity|]. rewrite Hs0 in Hs1. exact Hs1.
Qed.

Lemma Stop_before_Start_keeps_open_witness :
  let s0 := loki.run_ops demo_env (demo_client, empty_world) (repeat loki.OpStop 3) in
  let s1 := loki.Start (fst s0) (snd s0) in
  s0 = (demo_client, empty_world)
  /\ loki.closed (fst s0) = false
  /\ loki.started (fst s1) = true
  /\ loki.closed (fst s1) = false
  /\ loki.spawned (snd s1) = S (loki.spawned empty_world)
  /\ (forall (message : string) (level : pkg.LogLevel) (now : Z),
        snd (loki.pushLogWithLevel demo_env (fst s1) (snd s1) message level now) = None
        /\ (loki.MinLevel (loki.config (fst s1)) <= level ->
            fst (loki.pushLogWithLevel demo_env (fst s1) (snd s1) message level now)
            = (let entry := pkg.mkLogEntry now message level in
               let c1 := loki.set_buffer (fst (pkg.Add (loki.buffer (fst s1)) entry)) (fst s1) in
               if snd (pkg.Add (loki.buffer (fst s1)) entry)
               then loki.flush demo_env c1 (snd s1) else (c1, snd s1))))
  /\ (forall (s : loki.Client * loki.World) (op : loki.Op),
        loki.closed (fst s) = false ->
        loki.closed (fst (loki.run_op demo_env s op)) = true ->
        op = loki.OpStop /\ loki.started (fst s) = true).
Proof.
  apply (Stop_before_Start_keeps_open demo_env demo_config demo_client empty_world 3).
  reflexivity.
Defined.

(** ** Transport *)

(** C6: once the request is encoded, [send] issues exactly one HTTP
    request: a POST to the configured URL followed by
    [/loki/api/v1/push], with content type [application/json] and the
    encoded request as body.  It returns no error exactly when the
    server's answer has status 204; on an answer with any other status
    it returns an error whose message carries that status and the
    response body. *)
Theorem send_posts_once (rt : loki.Env) (c : loki.Client) (w : loki.World)
    (req : loki.PushRequest) (data : string) :
  loki.json_Marshal rt req = inl data ->
  let url := loki.URL (loki.config c) +:+ "/loki/api/v1/push" in
  let answer := loki.http_Post rt (loki.httpClient c) url "application/json" data in
  loki.http_log (fst (loki.send rt c w req))
  = loki.http_log w
      ++ [loki.mkHttpRequest (loki.httpClient c) "POST" url "application/json" data]
  /\ loki.diag_log (fst (loki.send rt c w req)) = loki.diag_log w
  /\ (snd (loki.send rt c w req) = None
      <-> exists body, answer = inl (loki.mkResponse 204 body))
  /\ (forall (code : Z) (body : string),
        answer = inl (loki.mkResponse code body) ->
        code <> 204 ->
        snd (loki.send rt c w req)
        = Some ("unexpected status code: " +:+ Go.FormatInt code
                  +:+ ", body: " +:+ body)).
Proof.
  intros Hdata url answer. unfold loki.send. rewrite Hdata.
  fold url. fold answer.
  destruct answer as [[code body]|err] eqn:Ha; simpl.
  - destruct (Z.eqb_spec code 204) as [->|Hne]; simpl.
    + repeat split; try reflexivity.
      * intros _. now exists body.
      * intros code' body' [= <- <-] Hc. contradiction.
    + repeat split; try reflexivity.
      * discriminate.
      * intros [body' [= E _]]. contradiction.
      * intros code' body' [= <- <-] _. reflexivity.
  - repeat split; try reflexivity; try discriminate.
    intros [body' [=]].
Qed.

Lemma send_posts_once_witness :
  let req := loki.mkPushRequest [] in
  let url := loki.URL (loki.config demo_started) +:+ "/loki/api/v1/push" in
  let answer :=
    loki.http_Post failing_env (loki.httpClient demo_started) url "application/json" "{}" in
  loki.http_log (fst (loki.send failing_env demo_started empty_world req))
  = loki.http_log empty_world
      ++ [loki.mkHttpRequest (loki.httpClient demo_started) "POST" url "application/json" "{}"]
  /\ loki.diag_log (fst (loki.send failing_env demo_started empty_world req))
     = loki.diag_log empty_world
  /\ (snd (loki.send failing_env demo_started empty_world req) = None
      <-> exists body, answer = inl (loki.mkResponse 204 body))
  /\ (forall (code : Z) (body : string),
        answer = inl (loki.mkResponse code body) ->
        code <> 204 ->
        snd (loki.send failing_env demo_started empty_world req)
        = Some ("unexpected status code: " +:+ Go.FormatInt code
                  +:+ ", body: " +:+ body)).
Proof.
  apply (send_posts_once failing_env demo_started empty_world (loki.mkPushRequest []) "{}").
  reflexivity.
Defined.

Example send_demo :
  loki.send demo_env demo_started empty_world (loki.mkPushRequest [])
  = (loki.mkWorld
       [loki.mkHttpRequest loki.DefaultClient "POST"
          "http://loki:3100/loki/api/v1/push" "application/json" "{}"] [] 0,
     None)
  /\ snd (loki.send failing_env demo_started empty_world (loki.mkPushRequest []))
     = Some "unexpected status code: 500, body: boom"%string.
Proof. split; reflexivity. Qed.

(** The other two ways [send] fails: the encoder's error (no request is
    issued) and the transport's error (one request was issued). *)
Lemma send_errors (rt : loki.Env) (c : loki.Client) (w : loki.World)
    (req : loki.PushRequest) :
  (forall err, loki.json_Marshal rt req = inr err ->
               loki.send rt c w req = (w, Some ("marshal request failed: " +:+ err)))
  /\ (forall data err,
        loki.json_Marshal rt req = inl data ->
        loki.http_Post rt (loki.httpClient c)
          (loki.URL (loki.config c) +:+ "/loki/api/v1/push") "application/json" data
        = inr err ->
        snd (loki.send rt c w req) = Some ("send request failed: " +:+ err)).
Proof.
  unfold loki.send. split.
  - intros err ->. reflexivity.
  - intros data err -> ->. reflexivity.
Qed.

(** [send] issues at most one request and writes no diagnostic. *)
Lemma send_world (rt : loki.Env) (c : loki.Client) (w : loki.World)
    (req : loki.PushRequest) :
  (exists rs, loki.http_log (fst (loki.send rt c w req)) = loki.http_log w ++ rs
              /\ (length rs <= 1)%nat)
  /\ loki.diag_log (fst (loki.send rt c w req)) = loki.diag_log w.
Proof.
  unfold loki.send. destruct (loki.json_Marshal rt req) as [data|err].
  - split.
    + eexists [_]. split; [|simpl; lia].
      destruct (loki.http_Post _ _ _ _ _) as [resp|e]; [|reflexivity].
      destruct (negb _); reflexivity.
    + destruct (loki.http_Post _ _ _ _ _) as [resp|e]; [|reflexivity].
      destruct (negb _); reflexivity.
  - split; [|reflexivity]. exists []. simpl. rewrite app_nil_r. split; [reflexivity|lia].
Qed.

(** ** Flush: delivery failures *)

(** On a non-empty buffer [flush] drains it, sends the request built
    from its contents, and writes a line if the send failed. *)
Lemma flush_nonempty (rt : loki.Env) (c : loki.Client) (w : loki.World) :
  pkg.entries (loki.buffer c) <> [] ->
  loki.flush rt c w
  = (drained c,
     match loki.send rt (drained c) w (flush_request rt c) with
     | (w', Some err) => loki.log_Printf ("Failed to send logs to Loki: " +:+ err) w'
     | (w', None) => w'
     end).
Proof.
  intros Hne. unfold loki.flush. rewrite Flush_nonempty by exact Hne.
  simpl. destruct (Go.len (pkg.entries (loki.buffer c)) =? 0) eqn:E.
  - apply len_nil_iff in E. contradiction.
  - fold (drained c). fold (flush_request rt c).
    destruct (loki.send _ _ _ _) as [w' [err|]]; reflexivity.
Qed.

(** C7: when the send of a flush fails with an error, the flush still
    ends with the buffer drained -- the client is then exactly what it
    would be under any other transport, a succeeding one included -- the
    entries are not put back, at most one request has been issued (no
    retry), and the error is only written as one line of the diagnostic
    log.  [flush] itself returns no error, and what a submit returns is
    determined by the two lifecycle flags alone: a transport error never
    shows in it. *)
Theorem flush_failure_drops_batch (rt : loki.Env) (c : loki.Client) (w : loki.World)
    (err : Go.error) :
  pkg.entries (loki.buffer c) <> [] ->
  snd (loki.send rt (drained c) w (flush_request rt c)) = Some err ->
  loki.flush rt c w
  = (drained c,
     loki.log_Printf ("Failed to send logs to Loki: " +:+ err)
       (fst (loki.send rt (drained c) w (flush_request rt c))))
  /\ pkg.entries (loki.buffer (fst (loki.flush rt c w))) = []
  /\ (forall rt' : loki.Env, fst (loki.flush rt' c w) = fst (loki.flush rt c w))
  /\ loki.diag_log (snd (loki.flush rt c w))
     = loki.diag_log w ++ ["Failed to send logs to Loki: " +:+ err]
  /\ (exists rs, loki.http_log (snd (loki.flush rt c w)) = loki.http_log w ++ rs
                 /\ (length rs <= 1)%nat)
  /\ (forall (c0 : loki.Client) (w0 : loki.World) (message : string)
             (level : pkg.LogLevel) (now : Z),
        snd (loki.pushLogWithLevel rt c0 w0 message level now)
        = if loki.closed c0 then Some "client is closed"%string
          else if negb (loki.started c0) then Some "client is not started"%string
          else None).
Proof.
  intros Hne Hsend.
  assert (Hflush : loki.flush rt c w
                   = (drained c,
                      loki.log_Printf ("Failed to send logs to Loki: " +:+ err)
                        (fst (loki.send rt (drained c) w (flush_request rt c))))).
  { rewrite flush_nonempty by exact Hne.
    destruct (loki.send rt (drained c) w (flush_request rt c)) as [w' r].
    simpl in Hsend. now subst r. }
  split; [exact Hflush|].
  split; [now rewrite flush_client|].
  split; [intros rt'; now rewrite !flush_client|].
  rewrite Hflush. simpl.
  destruct (send_world rt (drained c) w (flush_request rt c)) as [Hlog Hdiag].
  split; [now rewrite Hdiag|].
  split; [exact Hlog|].
  intros c0 w0 message level now. apply pushLogWithLevel_result.
Qed.

Lemma flush_failure_drops_batch_witness :
  let err := "unexpected status code: 500, body: boom"%string in
  loki.flush failing_env demo_loaded empty_world
  = (drained demo_loaded,
     loki.log_Printf ("Failed to send logs to Loki: " +:+ err)
       (fst (loki.send failing_env (drained demo_loaded) empty_world
               (flush_request failing_env demo_loaded))))
  /\ pkg.entries (loki.buffer (fst (loki.flush failing_env demo_loaded empty_world))) = []
  /\ (forall rt' : loki.Env,
        fst (loki.flush rt' demo_loaded empty_world)
        = fst (loki.flush failing_env demo_loaded empty_world))
  /\ loki.diag_log (snd (loki.flush failing_env demo_loaded empty_world))
     = loki.diag_log empty_world ++ ["Failed to send logs to Loki: " +:+ err]
  /\ (exists rs,
        loki.http_log (snd (loki.flush failing_env demo_loaded empty_world))
        = loki.http_log empty_world ++ rs
        /\ (length rs <= 1)%nat)
  /\ (forall (c0 : loki.Client) (w0 : loki.World) (message : string)
             (level : pkg.LogLevel) (now : Z),
        snd (loki.pushLogWithLevel failing_env c0 w0 message level now)
        = if loki.closed c0 then Some "client is closed"%string
          else if negb (loki.started c0) then Some "client is not started"%string
          else None).
Proof.
  apply (flush_failure_drops_batch failing_env demo_loaded empty_world
           "unexpected status code: 500, body: boom").
  - discriminate.
  - reflexivity.
Defined.

(** The same flush against the failing and against the answering
    server: same client afterwards, one request each, a diagnostic line
    only for the failure. *)
Example flush_failing_and_succeeding :
  let bad := loki.flush failing_env demo_loaded empty_world in
  let good := loki.flush demo_env demo_loaded empty_world in
  fst bad = fst good
  /\ pkg.entries (loki.buffer (fst bad)) = []
  /\ loki.http_log (snd bad) = loki.http_log (snd good)
  /\ loki.diag_log (snd good) = []
  /\ loki.diag_log (snd bad)
     = ["Failed to send logs to Loki: unexpected status code: 500, body: boom"%string].
Proof. vm_compute. repeat split. Qed.

(** ** Flush: one stream per level *)

Section Grouping.

Variable rt : loki.Env.

Lemma group_by_level_snoc (es : list pkg.LogEntry) (e : pkg.LogEntry) :
  loki.group_by_level (es ++ [e]) = loki.group_entry (loki.group_by_level es) e.
Proof. unfold loki.group_by_level. now rewrite foldl_app. Qed.

Lemma entries_at_snoc (level : pkg.LogLevel) (es : list pkg.LogEntry) (e : pkg.LogEntry) :
  entries_at level (es ++ [e])
  = entries_at level es ++ (if decide (pkg.Level e = level) then [e] else []).
Proof.
  unfold entries_at. rewrite filter_app. reflexivity.
Qed.

(** After the first loop, a level is a key of the map exactly when some
    entry carries it, and its group holds the wire forms of those
    entries in batch order. *)
Lemma group_by_level_lookup (es : list pkg.LogEntry) (level : pkg.LogLevel) :
  loki.group_by_level es !! level
  = match entries_at level es with
    | [] => None
    | _ :: _ => Some (render <$> entries_at level es)
    end.
Proof.
  induction es as [|e es IH] using rev_ind; [reflexivity|].
  rewrite group_by_level_snoc, entries_at_snoc. unfold loki.group_entry.
  destruct (decide (pkg.Level e = level)) as [<-|Hne].
  - rewrite lookup_insert_eq, IH, fmap_app. fold (render e).
    destruct (entries_at (pkg.Level e) es); reflexivity.
  - rewrite lookup_insert_ne by exact Hne. now rewrite app_nil_r.
Qed.

Lemma entries_at_nonempty (es : list pkg.LogEntry) (level : pkg.LogLevel) :
  entries_at level es <> [] <-> exists e, e ∈ es /\ pkg.Level e = level.
Proof.
  unfold entries_at. split.
  - destruct (filter _ es) as [|e l] eqn:E; [congruence|]. intros _.
    assert (He : e ∈ filter (fun e => pkg.Level e = level) es)
      by (rewrite E; apply list_elem_of_here).
    apply list_elem_of_filter in He as [Hl Hin]. now exists e.
  - intros [e [Hin Hl]] E.
    assert (He : e ∈ filter (fun e => pkg.Level e = level) es)
      by (apply list_elem_of_filter; now split).
    rewrite E in He. now apply not_elem_of_nil in He.
Qed.

(** Copying a map key by key yields the map. *)
Lemma copy_labels (m : gmap string string) :
  map_fold (fun k v labels => <[k := v]> labels) ∅ m = m.
Proof.
  apply (map_fold_weak_ind (fun r m => r = m)); [reflexivity|].
  intros k v m' r _ ->. reflexivity.
Qed.

Lemma stream_labels_eq (c : loki.Client) (level : pkg.LogLevel) :
  loki.stream_labels rt c level
  = <["detected_level"%string := loki.LevelToString rt level]> (loki.Labels (loki.config c)).
Proof. unfold loki.stream_labels. now rewrite copy_labels. Qed.

(** The second loop appends one stream per visited group. *)
Lemma build_streams_fmap (c : loki.Client)
    (groups : gmap pkg.LogLevel (list (string * string))) :
  loki.build_streams rt c groups
  = (fun g => loki.mkStream (loki.stream_labels rt c (fst g)) (snd g))
      <$> loki.map_range rt groups.
Proof.
  unfold loki.build_streams.
  set (f := fun (streams : list loki.Stream) '(level, values) =>
              streams ++ [loki.mkStream (loki.stream_labels rt c level) values]).
  assert (H : forall xs acc,
             foldl f acc xs
             = acc ++ ((fun g => loki.mkStream (loki.stream_labels rt c (fst g)) (snd g)) <$> xs)).
  { induction xs as [|[l vs] xs IH]; intros acc; simpl.
    - now rewrite app_nil_r.
    - rewrite IH. now rewrite <- app_assoc. }
  now rewrite H.
Qed.

End Grouping.

(** C1: [flush] of a non-empty buffer sends one request whose streams
    are in one-to-one correspondence with the distinct levels present in
    the drained batch: there is a duplicate-free list of levels, holding
    exactly the levels some entry of the batch carries, such that the
    request is the list of these levels' streams.  The stream of a level
    has the configured labels with [detected_level] set to the name of
    the level, and its values are the entries of that level, in the
    order they were buffered, each as its decimal timestamp and its
    message.  (The order of the streams is the order in which [range]
    visits the groups.) *)
Theorem flush_partitions_by_level (rt : loki.Env) (c : loki.Client) (w : loki.World) :
  loki.range_visits_each_once rt ->
  pkg.entries (loki.buffer c) <> [] ->
  let es := pkg.entries (loki.buffer c) in
  exists levels : list pkg.LogLevel,
    NoDup levels
    /\ (forall level, level ∈ levels <-> exists e, e ∈ es /\ pkg.Level e = level)
    /\ flush_request rt c = loki.mkPushRequest (level_stream rt c es <$> levels)
    /\ loki.flush rt c w
       = (drained c,
          match loki.send rt (drained c) w
                  (loki.mkPushRequest (level_stream rt c es <$> levels)) with
          | (w', Some err) => loki.log_Printf ("Failed to send logs to Loki: " +:+ err) w'
          | (w', None) => w'
          end).
Proof.
  intros Hrange Hne es.
  set (groups := loki.group_by_level es).
  assert (Hin : forall level vs,
             (level, vs) ∈ loki.map_range rt groups <-> groups !! level = Some vs).
  { intros level vs. rewrite (Hrange groups). apply elem_of_map_to_list. }
  assert (Hreq : flush_request rt c
                 = loki.mkPushRequest
                     (level_stream rt c es <$> (loki.map_range rt groups).*1)).
  { unfold flush_request. rewrite build_streams_fmap. f_equal.
    rewrite <- list_fmap_compose. apply list_fmap_ext.
    intros i [level vs] Hi. simpl.
    apply list_elem_of_lookup_2, Hin in Hi.
    unfold groups in Hi. rewrite group_by_level_lookup in Hi.
    unfold level_stream. rewrite stream_labels_eq. simpl.
    destruct (entries_at level es) eqn:E; [discriminate|].
    now injection Hi as <-. }
  exists ((loki.map_range rt groups).*1). split; [|split; [|split]].
  - rewrite (Hrange groups). apply NoDup_fst_map_to_list.
  - intros level. rewrite <- entries_at_nonempty. split.
    + intros Hl. apply list_elem_of_fmap in Hl as [[l vs] [-> Hl]]. simpl.
      apply Hin in Hl. unfold groups in Hl. rewrite group_by_level_lookup in Hl.
      destruct (entries_at l es); [discriminate|congruence].
    + intros Hl. apply list_elem_of_fmap.
      exists (level, render <$> entries_at level es). split; [reflexivity|].
      apply Hin. unfold groups. rewrite group_by_level_lookup.
      destruct (entries_at level es); [contradiction|reflexivity].
  - exact Hreq.
  - rewrite flush_nonempty by exact Hne. now rewrite Hreq.
Qed.

Lemma flush_partitions_by_level_witness :
  let es := pkg.entries (loki.buffer demo_mixed) in
  exists levels : list pkg.LogLevel,
    NoDup levels
    /\ (forall level, level ∈ levels <-> exists e, e ∈ es /\ pkg.Level e = level)
    /\ flush_request demo_env demo_mixed
       = loki.mkPushRequest (level_stream demo_env demo_mixed es <$> levels)
    /\ loki.flush demo_env demo_mixed empty_world
       = (drained demo_mixed,
          match loki.send demo_env (drained demo_mixed) empty_world
                  (loki.mkPushRequest (level_stream demo_env demo_mixed es <$> levels)) with
          | (w', Some err) => loki.log_Printf ("Failed to send logs to Loki: " +:+ err) w'
          | (w', None) => w'
          end).
Proof.
  apply (flush_partitions_by_level demo_env demo_mixed empty_world).
  - intros m. reflexivity.
  - discriminate.
Defined.

(** The spec's example, run: two streams, Info with the first and third
    entries in that order, Error with the second ([demo_env] visits the
    Error group first). *)
Example flush_request_mixed :
  flush_request demo_env demo_mixed
  = loki.mkPushRequest
      [loki.mkStream
         (<["detected_level"%string := "error"%string]>
            {[ "service_name"%string := "demo"%string ]})
         [("2", "b")]%string;
       loki.mkStream
         (<["detected_level"%string := "info"%string]>
            {[ "service_name"%string := "demo"%string ]})
         [("1", "a"); ("3", "c")]%string].
Proof. vm_compute. reflexivity. Qed.

(** ** The zap wrapper: order of delegation and shipping *)





(** Without a client a wrapper method only calls the embedded logger. *)
Lemma wrapper_without_client (Field : Type) (rt : loki.Env) (zrt : zap.Env Field)
    (w : loki.World) (tr : list (zap.Event Field))
    (msg : string) (fields : list Field) (now : Z) (lvl : zap.Level) :
  zap.log rt zrt lvl msg fields now (zap.mkState (zap.mkLogger None) w tr)
  = zap.mkState (zap.mkLogger None) w (tr ++ [zap.Local lvl msg fields]).
Proof.
  destruct lvl; simpl;
    unfold zap.Debug, zap.Info, zap.Warn, zap.Error, zap.DPanic, zap.Panic,
      zap.Fatal, zap.local_then_remote, zap.call_remote, zap.call_local; simpl;
    try (destruct (zap.local_returns zrt _)); reflexivity.
Qed.

Example wrapper_order :
  let st := zap.mkState (zap.mkLogger (Some demo_started)) empty_world [] in
  zap.trace (zap.Fatal demo_env demo_zap_env "down" [] 1 st)
  = [zap.Remote pkg.LevelError "down"; zap.Local zap.FatalLevel "down" []]
  /\ zap.trace (zap.Info demo_env demo_zap_env "up" ["{}"%string] 1 st)
     = [zap.Local zap.InfoLevel "up" ["{}"%string]; zap.Remote pkg.LevelInfo "up {}"]
  /\ zap.trace (zap.Panic demo_env demo_zap_env "oops" [] 1 st)
     = [zap.Local zap.PanicLevel "oops" []].
Proof. vm_compute. repeat split. Qed.

(** * Further properties of the buffer, the client and the wrapper *)

(** ** The buffer: when [Add] signals *)

(** X1: on a buffer made by [NewBuffer n], the add that brings the
    length to the threshold is the first to return true, and every add
    after it returns true as well, for as long as nothing is flushed;
    the threshold is [n], or 100 when [n] is zero or negative.  No entry
    is dropped on the way: the buffer holds all the entries added,
    however far past the threshold. *)
Theorem Add_signals_from_threshold (n : Z) (es : list pkg.LogEntry) (e : pkg.LogEntry) :
  let threshold := if n <=? 0 then 100 else n in
  (snd (pkg.Add (pkg.AddAll (pkg.NewBuffer n) es) e) = true
   <-> threshold <= Go.len es + 1)
  /\ pkg.entries (fst (pkg.Add (pkg.AddAll (pkg.NewBuffer n) es) e)) = es ++ [e].
Proof.
  intros threshold. split.
  - unfold pkg.Add. simpl. rewrite AddAll_entries, AddAll_size. simpl.
    fold threshold. unfold Go.len. rewrite length_app. simpl.
    rewrite <- Z.geb_le. replace (Z.of_nat (length es + 1)) with (Z.of_nat (length es) + 1) by lia.
    reflexivity.
  - rewrite Add_entries, AddAll_entries. reflexivity.
Qed.

(** ** The client: what holds along every run *)

Section RunFacts.

Variable rt : loki.Env.

Lemma NewClient_flags (cfg : loki.ClientConfig) (c : loki.Client) :
  loki.NewClient cfg = inl c ->
  loki.started c = false /\ loki.closed c = false /\ loki.done c = []
  /\ loki.buffer c
     = pkg.mkBuffer [] (if 0 <? loki.BatchSize cfg then loki.BatchSize cfg else 100).
Proof.
  unfold loki.NewClient. destruct (String.eqb _ _); [discriminate|].
  intros [= <-]. simpl. repeat split. unfold pkg.NewBuffer. f_equal.
  destruct (Z.eqb_spec (loki.BatchSize cfg) 0) as [->|Hne]; [reflexivity|].
  destruct (Z.leb_spec (loki.BatchSize cfg) 0), (Z.ltb_spec 0 (loki.BatchSize cfg));
    try reflexivity; lia.
Qed.

Lemma run_ops_started (s : loki.Client * loki.World) (ops : list loki.Op) :
  loki.started (fst (loki.run_ops rt s ops))
  = loki.started (fst s) || existsb is_Start ops.
Proof.
  induction ops as [|op ops IH] using rev_ind.
  - simpl. now rewrite orb_false_r.
  - rewrite run_ops_snoc, run_op_started, existsb_app, IH. simpl.
    destruct op; simpl; rewrite ?orb_false_r, ?orb_true_r; reflexivity.
Qed.

Lemma run_ops_done_inv (s : loki.Client * loki.World) (ops : list loki.Op) :
  done_within_capacity (fst s) ->
  done_within_capacity (fst (loki.run_ops rt s ops)).
Proof.
  intros Hs. induction ops as [|op ops IH] using rev_ind; [exact Hs|].
  rewrite run_ops_snoc. now apply run_op_done_within_capacity.
Qed.

End RunFacts.

(** X2: however many times [Start] is called, and whatever else is done
    to the client, the worker is spawned once: along any run of
    operations on a new client, the number of workers spawned is one if
    the run contains a [Start] and zero otherwise, and [started] is set
    in exactly the first case. *)
Theorem Start_spawns_one_worker (rt : loki.Env) (cfg : loki.ClientConfig)
    (c : loki.Client) (w : loki.World) (ops : list loki.Op) :
  loki.NewClient cfg = inl c ->
  let s := loki.run_ops rt (c, w) ops in
  loki.spawned (snd s)
  = (loki.spawned w + if existsb is_Start ops then 1 else 0)%nat
  /\ loki.started (fst s) = existsb is_Start ops.
Proof.
  intros Hnew s.
  assert (Hst : loki.started (fst s) = existsb is_Start ops).
  { subst s. rewrite run_ops_started. simpl.
    now destruct (NewClient_flags cfg c Hnew) as [-> _]. }
  split; [|exact Hst]. rewrite <- Hst. subst s. now apply (run_ops_spawned rt cfg).
Qed.

Lemma Start_spawns_one_worker_witness :
  let s := loki.run_ops demo_env (demo_client, empty_world)
             [loki.OpStart; loki.OpPush "a" pkg.LevelInfo 1; loki.OpStart; loki.OpStart] in
  loki.spawned (snd s) = (loki.spawned empty_world + 1)%nat
  /\ loki.started (fst s) = true.
Proof.
  apply (Start_spawns_one_worker demo_env demo_config demo_client empty_world
           [loki.OpStart; loki.OpPush "a" pkg.LevelInfo 1; loki.OpStart; loki.OpStart]).
  reflexivity.
Defined.

(** X3: the [done] channel never holds more than its capacity of one
    value: along any run of operations on a new client it is empty as
    long as the client is not closed, and holds at most one value once
    it is.  So the send in [Stop] finds room, and only a closed client
    has a stop signal pending. *)
Theorem done_channel_within_capacity (rt : loki.Env) (cfg : loki.ClientConfig)
    (c : loki.Client) (w : loki.World) (ops : list loki.Op) :
  loki.NewClient cfg = inl c ->
  let c' := fst (loki.run_ops rt (c, w) ops) in
  (length (loki.done c') <= 1)%nat
  /\ (loki.closed c' = false -> loki.done c' = []).
Proof.
  intros Hnew c'.
  assert (H : done_within_capacity c').
  { apply run_ops_done_inv. unfold done_within_capacity. simpl.
    destruct (NewClient_flags cfg c Hnew) as (_ & -> & -> & _). simpl. lia. }
  unfold done_within_capacity in H. split.
  - destruct (loki.closed c'); lia.
  - intros Hc. rewrite Hc in H. destruct (loki.done c'); [reflexivity|simpl in H; lia].
Qed.

Lemma done_channel_within_capacity_witness :
  let c' := fst (loki.run_ops demo_env (demo_client, empty_world)
                   [loki.OpStart; loki.OpStop; loki.OpStop; loki.OpStart]) in
  (length (loki.done c') <= 1)%nat
  /\ (loki.closed c' = false -> loki.done c' = []).
Proof.
  apply (done_channel_within_capacity demo_env demo_config demo_client empty_world
           [loki.OpStart; loki.OpStop; loki.OpStop; loki.OpStart]).
  reflexivity.
Defined.

(** X4: whenever the buffer holds at least as many entries as its
    threshold, a flush is owed: under any interleaving of the atomic
    steps on the buffer -- the [Add] of a submit, the [Flush] of a
    submit whose [Add] returned true, the [Flush] of any other flush --
    starting from a new buffer, a buffer at or above its threshold means
    that some submit whose [Add] returned true has not run its flush
    yet.  The threshold itself never changes: it is the size given to
    [NewBuffer], or 100 if that was zero or negative. *)
Theorem overfull_buffer_has_flush_owed (n : Z) (steps : list shared.Step) :
  let s := shared.run n steps in
  pkg.size (shared.buffer s) = (if n <=? 0 then 100 else n)
  /\ (pkg.size (shared.buffer s) <= Go.len (pkg.entries (shared.buffer s)) ->
      (0 < shared.owed s)%nat).
Proof.
  intros s. subst s. unfold shared.run.
  induction steps as [|st steps [IHsize IHowed]] using rev_ind; simpl.
  - split; [reflexivity|]. unfold Go.len. simpl.
    destruct (Z.leb_spec n 0); lia.
  - rewrite foldl_app. simpl.
    set (s := foldl shared.step _ steps) in *.
    assert (Hpos : 0 < pkg.size (shared.buffer s)).
    { rewrite IHsize. destruct (Z.leb_spec n 0); lia. }
    assert (Hflush : pkg.size (fst (pkg.Flush (shared.buffer s))) = pkg.size (shared.buffer s)
                     /\ Go.len (pkg.entries (fst (pkg.Flush (shared.buffer s)))) = 0).
    { rewrite Flush_leaves_empty. now split. }
    destruct Hflush as [Hfs Hfl].
    destruct st as [entry| |]; simpl.
    + unfold pkg.Add. simpl. split; [exact IHsize|].
      destruct (Z.geb_spec (Go.len (pkg.entries (shared.buffer s) ++ [entry]))
                  (pkg.size (shared.buffer s))); simpl; lia.
    + destruct (shared.owed s) as [|k] eqn:Ek.
      * split; [exact IHsize|]. intros H. specialize (IHowed H). lia.
      * simpl. rewrite Hfs, Hfl. split; [exact IHsize|lia].
    + simpl. rewrite Hfs, Hfl. split; [exact IHsize|lia].
Qed.

(** Two submits whose adds both pass the threshold before either has
    flushed: the buffer is above its threshold, and two flushes are
    owed; the first to run ships all three entries. *)
Example overlapping_submits :
  let e k := pkg.mkLogEntry k "m" pkg.LevelInfo in
  let s := shared.run 2 [shared.StepAdd (e 1); shared.StepAdd (e 2); shared.StepAdd (e 3)] in
  pkg.entries (shared.buffer s) = [e 1; e 2; e 3]
  /\ shared.owed s = 2%nat
  /\ pkg.entries (shared.buffer (shared.step s shared.StepOwedFlush)) = [].
Proof. repeat split. Qed.

(** ** Flush: every entry is shipped once *)

Section Shipping.

Variable rt : loki.Env.

Lemma concat_Permutation_proper {A : Type} (ls1 ls2 : list (list A)) :
  ls1 ≡ₚ ls2 -> concat ls1 ≡ₚ concat ls2.
Proof.
  induction 1 as [|l ls1 ls2 _ IH|l1 l2 ls|ls1 ls2 ls3 _ IH1 _ IH2]; simpl.
  - reflexivity.
  - now rewrite IH.
  - rewrite !app_assoc. f_equiv. apply Permutation_app_comm.
  - now rewrite IH1.
Qed.

Lemma length_concat_nonempty {A : Type} (ls : list (list A)) :
  Forall (fun l => l <> []) ls -> (length ls <= length (concat ls))%nat.
Proof.
  induction 1 as [|l ls Hl _ IH]; simpl; [lia|].
  rewrite length_app. destruct l; [contradiction|]. simpl. lia.
Qed.

Lemma group_entry_values (groups : gmap pkg.LogLevel (list (string * string)))
    (e : pkg.LogEntry) :
  group_values (loki.group_entry groups e) ≡ₚ group_values groups ++ [render e].
Proof.
  unfold group_values, loki.group_entry. fold (render e).
  destruct (groups !! pkg.Level e) as [vs|] eqn:E; simpl.
  - rewrite <- (insert_delete_eq groups).
    rewrite map_to_list_insert by apply lookup_delete_eq.
    rewrite <- (map_to_list_delete groups _ _ E). simpl.
    rewrite <- !app_assoc. f_equiv. apply Permutation_app_comm.
  - rewrite map_to_list_insert by exact E. simpl.
    apply Permutation_cons_append.
Qed.

Lemma group_by_level_values (es : list pkg.LogEntry) :
  group_values (loki.group_by_level es) ≡ₚ render <$> es.
Proof.
  induction es as [|e es IH] using rev_ind.
  - unfold group_values, loki.group_by_level. simpl. now rewrite map_to_list_empty.
  - rewrite group_by_level_snoc, group_entry_values, IH, fmap_app. reflexivity.
Qed.

Lemma request_values_range (c : loki.Client)
    (groups : gmap pkg.LogLevel (list (string * string))) :
  request_values (loki.mkPushRequest (loki.build_streams rt c groups))
  = concat (loki.map_range rt groups).*2.
Proof.
  unfold request_values. simpl. rewrite build_streams_fmap.
  rewrite <- list_fmap_compose. reflexivity.
Qed.

(** The streams of the request come from the groups the first loop made,
    so each holds the wire forms of the entries of some level present
    in the batch. *)
Lemma flush_request_stream (c : loki.Client) (s : loki.Stream) :
  loki.range_visits_each_once rt ->
  s ∈ loki.Streams (flush_request rt c) ->
  exists level,
    s = level_stream rt c (pkg.entries (loki.buffer c)) level
    /\ entries_at level (pkg.entries (loki.buffer c)) <> [].
Proof.
  intros Hrange Hs. unfold flush_request in Hs. simpl in Hs.
  rewrite build_streams_fmap in Hs.
  apply list_elem_of_fmap in Hs as [[level vs] [-> Hg]]. simpl.
  rewrite (Hrange _) in Hg. apply elem_of_map_to_list in Hg.
  rewrite group_by_level_lookup in Hg.
  exists level. unfold level_stream. rewrite stream_labels_eq. simpl.
  destruct (entries_at level _) eqn:E; [discriminate|].
  injection Hg as <-. split; [reflexivity|discriminate].
Qed.

End Shipping.

(** X5: the request [flush] builds ships every drained entry exactly
    once: taken together, the values of its streams are the wire forms
    (decimal timestamp, message) of the buffered entries, each as many
    times as it is buffered -- a rearrangement of the batch, with
    nothing lost and nothing repeated. *)
Theorem flush_ships_each_entry_once (rt : loki.Env) (c : loki.Client) :
  loki.range_visits_each_once rt ->
  request_values (flush_request rt c) ≡ₚ render <$> pkg.entries (loki.buffer c).
Proof.
  intros Hrange. unfold flush_request. rewrite request_values_range.
  rewrite (Hrange _). apply group_by_level_values.
Qed.

Lemma flush_ships_each_entry_once_witness :
  request_values (flush_request demo_env demo_mixed)
  ≡ₚ render <$> pkg.entries (loki.buffer demo_mixed).
Proof.
  apply (flush_ships_each_entry_once demo_env demo_mixed).
  intros m. reflexivity.
Defined.

(** X6: [flush] never sends an empty request or an empty stream: for a
    non-empty buffer the request has at least one stream and at most as
    many streams as there are entries, and every stream carries at least
    one value. *)
Theorem flush_sends_no_empty_stream (rt : loki.Env) (c : loki.Client) :
  loki.range_visits_each_once rt ->
  pkg.entries (loki.buffer c) <> [] ->
  loki.Streams (flush_request rt c) <> []
  /\ (length (loki.Streams (flush_request rt c)) <= length (pkg.entries (loki.buffer c)))%nat
  /\ (forall s, s ∈ loki.Streams (flush_request rt c) -> loki.Values s <> []).
Proof.
  intros Hrange Hne.
  assert (Hvals : forall s, s ∈ loki.Streams (flush_request rt c) -> loki.Values s <> []).
  { intros s Hs. destruct (flush_request_stream rt c s Hrange Hs) as (level & -> & Hl).
    simpl. intros E. apply fmap_nil_inv in E. contradiction. }
  assert (Hperm : request_values (flush_request rt c)
                  ≡ₚ render <$> pkg.entries (loki.buffer c)).
  { unfold flush_request. rewrite request_values_range, (Hrange _).
    apply group_by_level_values. }
  split; [|split; [|exact Hvals]].
  - intros E. unfold request_values in Hperm. rewrite E in Hperm. simpl in Hperm.
    symmetry in Hperm. apply Permutation_nil_r in Hperm.
    apply fmap_nil_inv in Hperm. contradiction.
  - apply Permutation_length in Hperm. rewrite length_fmap in Hperm.
    rewrite <- Hperm. unfold request_values.
    rewrite <- (length_fmap loki.Values (loki.Streams (flush_request rt c))).
    apply length_concat_nonempty. apply Forall_fmap, Forall_forall. exact Hvals.
Qed.

Lemma flush_sends_no_empty_stream_witness :
  loki.Streams (flush_request demo_env demo_mixed) <> []
  /\ (length (loki.Streams (flush_request demo_env demo_mixed))
      <= length (pkg.entries (loki.buffer demo_mixed)))%nat
  /\ (forall s, s ∈ loki.Streams (flush_request demo_env demo_mixed) -> loki.Values s <> []).
Proof.
  apply (flush_sends_no_empty_stream demo_env demo_mixed).
  - intros m. reflexivity.
  - discriminate.
Defined.

(** ** Submits, thresholds and traffic *)

Lemma send_http_log (rt : loki.Env) (c : loki.Client) (w : loki.World)
    (req : loki.PushRequest) (data : string) :
  loki.json_Marshal rt req = inl data ->
  fst (loki.send rt c w req)
  = loki.log_request
      (loki.mkHttpRequest (loki.httpClient c) "POST"
         (loki.URL (loki.config c) +:+ "/loki/api/v1/push") "application/json" data) w.
Proof.
  intros Hd. unfold loki.send. rewrite Hd.
  destruct (loki.http_Post _ _ _ _ _) as [resp|err]; [|reflexivity].
  destruct (negb _); reflexivity.
Qed.

Lemma flush_empty_noop (rt : loki.Env) (c : loki.Client) (w : loki.World) :
  pkg.entries (loki.buffer c) = [] -> loki.flush rt c w = (c, w).
Proof.
  intros He. unfold loki.flush. rewrite (Flush_empty _ He). simpl.
  destruct c. reflexivity.
Qed.

(** X7: as long as the threshold is not reached, submits only fill the
    buffer: on a started, open client, a run of submits at or above the
    minimum level that keeps the number of buffered entries below the
    threshold appends the entries in the order of the submits, each with
    the clock reading, message and level of its submit, and leaves the
    world untouched -- no request, no diagnostic line. *)
Theorem submits_below_threshold_only_buffer (rt : loki.Env)
    (ps : list (string * pkg.LogLevel * Z)) (c : loki.Client) (w : loki.World) :
  loki.closed c = false ->
  loki.started c = true ->
  Forall (fun p => loki.MinLevel (loki.config c) <= snd (fst p)) ps ->
  Go.len (pkg.entries (loki.buffer c)) + Go.len ps < pkg.size (loki.buffer c) ->
  loki.run_ops rt (c, w) (push_op <$> ps)
  = (loki.set_buffer
       (pkg.mkBuffer (pkg.entries (loki.buffer c) ++ (push_entry <$> ps))
          (pkg.size (loki.buffer c))) c,
     w).
Proof.
  revert c. induction ps as [|p ps IH]; intros c Hc Hs Hlv Hlen.
  - simpl. rewrite app_nil_r. destruct c as [cfg [es n] d h cl st]. reflexivity.
  - apply Forall_cons in Hlv as [Hp Hps].
    unfold Go.len in Hlen. simpl length in Hlen.
    change (loki.run_ops rt (c, w) (push_op <$> p :: ps))
      with (loki.run_ops rt (loki.run_op rt (c, w) (push_op p)) (push_op <$> ps)).
    unfold push_op at 1. simpl loki.run_op.
    rewrite push_accepted by assumption.
    unfold pkg.Add. simpl.
    destruct (Z.geb_spec (Go.len (pkg.entries (loki.buffer c)
                                    ++ [pkg.mkLogEntry (snd p) (fst (fst p)) (snd (fst p))]))
                (pkg.size (loki.buffer c))) as [Hfull|_].
    { unfold Go.len in Hfull. rewrite length_app in Hfull. simpl in Hfull. lia. }
    rewrite IH; simpl; try assumption.
    + unfold loki.set_buffer. simpl. rewrite <- app_assoc. reflexivity.
    + unfold Go.len. rewrite length_app. simpl. lia.
Qed.

Lemma submits_below_threshold_only_buffer_witness :
  loki.run_ops demo_env (demo_mixed, empty_world)
    (push_op <$> [("d"%string, pkg.LevelWarn, 4)])
  = (loki.set_buffer
       (pkg.mkBuffer (pkg.entries (loki.buffer demo_mixed)
                        ++ (push_entry <$> [("d"%string, pkg.LevelWarn, 4)]))
          (pkg.size (loki.buffer demo_mixed))) demo_mixed,
     empty_world).
Proof.
  apply (submits_below_threshold_only_buffer demo_env
           [("d"%string, pkg.LevelWarn, 4)] demo_mixed empty_world).
  - reflexivity.
  - reflexivity.
  - repeat constructor. apply Z.leb_le. reflexivity.
  - apply Z.ltb_lt. reflexivity.
Defined.



(** ** Flushing twice, stopping twice, and the worker's last turn *)

(** X9: [flush] touches nothing of the client but the contents of its
    buffer -- configuration, threshold, flags, channel and transport
    handle stay as they are, whatever the transport answers -- it spawns
    nothing, and a second [flush] right after the first does nothing at
    all: no request, no diagnostic line. *)
Theorem flush_twice_is_flush_once (rt : loki.Env) (c : loki.Client) (w : loki.World) :
  let s := loki.flush rt c w in
  fst s = loki.mkClient (loki.config c) (pkg.mkBuffer [] (pkg.size (loki.buffer c)))
            (loki.done c) (loki.httpClient c) (loki.closed c) (loki.started c)
  /\ loki.spawned (snd s) = loki.spawned w
  /\ loki.flush rt (fst s) (snd s) = s.
Proof.
  intros s. subst s. split; [apply flush_client|]. split; [apply flush_spawned|].
  rewrite flush_empty_noop by now rewrite flush_client.
  now rewrite <- surjective_pairing.
Qed.

Lemma Stop_on_open (rt : loki.Env) (c : loki.Client) (w : loki.World) :
  loki.started c = true ->
  loki.closed c = false ->
  loki.Stop rt c w
  = (loki.set_done (loki.done c ++ [true]) (drained (loki.set_closed true c)),
     snd (loki.flush rt (loki.set_closed true c) w)).
Proof.
  intros Hs Hc. unfold loki.Stop. rewrite Hs, Hc. simpl.
  rewrite (surjective_pairing (loki.flush rt (loki.set_closed true c) w)).
  rewrite flush_client. reflexivity.
Qed.

(** X10: [Stop] on a started, open client closes it, flushes what is
    buffered (the world afterwards is that of the flush), leaves the
    buffer empty and puts one signal on the [done] channel; calling
    [Stop] again changes neither the client nor the world, so the final
    flush and the signal happen once. *)
Theorem Stop_drains_and_signals_once (rt : loki.Env) (c : loki.Client) (w : loki.World) :
  loki.started c = true ->
  loki.closed c = false ->
  let s := loki.Stop rt c w in
  loki.closed (fst s) = true
  /\ pkg.entries (loki.buffer (fst s)) = []
  /\ loki.done (fst s) = loki.done c ++ [true]
  /\ snd s = snd (loki.flush rt (loki.set_closed true c) w)
  /\ loki.Stop rt (fst s) (snd s) = s.
Proof.
  intros Hs Hc s. subst s. rewrite Stop_on_open by assumption.
  simpl. repeat split.
  unfold loki.Stop. simpl. rewrite Hs. reflexivity.
Qed.

Lemma Stop_drains_and_signals_once_witness :
  let s := loki.Stop failing_env demo_loaded empty_world in
  loki.closed (fst s) = true
  /\ pkg.entries (loki.buffer (fst s)) = []
  /\ loki.done (fst s) = loki.done demo_loaded ++ [true]
  /\ snd s = snd (loki.flush failing_env (loki.set_closed true demo_loaded) empty_world)
  /\ loki.Stop failing_env (fst s) (snd s) = s.
Proof.
  apply (Stop_drains_and_signals_once failing_env demo_loaded empty_world).
  - reflexivity.
  - reflexivity.
Defined.

(** X11: the worker's last turn ships what is left.  On the stop
    signal the worker takes the signal off the channel and ends; if
    entries are still buffered at that moment (they reached the buffer
    after the flush of [Stop]) and time has passed since the worker's
    last flush, they are sent in one request and the buffer is left
    empty; if no time has passed they stay in the buffer, unsent. *)
Theorem worker_stop_turn_ships_leftovers (rt : loki.Env) (c : loki.Client) (w : loki.World)
    (since now lastFlush : Z) (d : bool) (rest : list bool) (data : string) :
  loki.done c = d :: rest ->
  pkg.entries (loki.buffer c) <> [] ->
  loki.json_Marshal rt (flush_request rt c) = inl data ->
  let r := loki.worker_turn rt loki.DoneSignal since now lastFlush c w in
  snd r = None
  /\ loki.done (fst (fst r)) = rest
  /\ (0 < since ->
      pkg.entries (loki.buffer (fst (fst r))) = []
      /\ loki.http_log (snd (fst r))
         = loki.http_log w
             ++ [loki.mkHttpRequest (loki.httpClient c) "POST"
                   (loki.URL (loki.config c) +:+ "/loki/api/v1/push")
                   "application/json" data])
  /\ (since <= 0 -> fst r = (loki.set_done rest c, w)).
Proof.
  intros Hd Hne Hdata r. subst r. unfold loki.worker_turn. rewrite Hd.
  destruct (Z.gtb_spec since 0) as [Hpos|Hnpos].
  - rewrite (surjective_pairing (loki.flush rt (loki.set_done rest c) w)). simpl.
    split; [reflexivity|]. split; [now rewrite flush_client|].
    split; [|lia]. intros _. split; [now rewrite flush_client|].
    rewrite flush_nonempty by exact Hne. simpl.
    change (flush_request rt (loki.set_done rest c)) with (flush_request rt c).
    pose proof (send_http_log rt (drained (loki.set_done rest c)) w
                  (flush_request rt c) data Hdata) as Hsend.
    destruct (loki.send rt (drained (loki.set_done rest c)) w (flush_request rt c))
      as [w' [err|]]; simpl in Hsend; subst w'; reflexivity.
  - simpl. split; [reflexivity|]. split; [reflexivity|]. split; [lia|]. reflexivity.
Qed.

Lemma worker_stop_turn_ships_leftovers_witness :
  let c := loki.set_done [true] (loki.set_closed true demo_loaded) in
  let r := loki.worker_turn failing_env loki.DoneSignal 5 100 95 c empty_world in
  snd r = None
  /\ loki.done (fst (fst r)) = []
  /\ (0 < 5 ->
      pkg.entries (loki.buffer (fst (fst r))) = []
      /\ loki.http_log (snd (fst r))
         = loki.http_log empty_world
             ++ [loki.mkHttpRequest (loki.httpClient c) "POST"
                   (loki.URL (loki.config c) +:+ "/loki/api/v1/push")
                   "application/json" "{}"])
  /\ (5 <= 0 -> fst r = (loki.set_done [] c, empty_world)).
Proof.
  apply (worker_stop_turn_ships_leftovers failing_env
           (loki.set_done [true] (loki.set_closed true demo_loaded)) empty_world
           5 100 95 true [] "{}").
  - reflexivity.
  - discriminate.
  - reflexivity.
Defined.

(** X12: a client with nothing buffered generates no traffic: along any
    run of [Start], [Stop] and worker turns (ticks and stop signals) on
    a client whose buffer is empty, no request is issued, no diagnostic
    line is written, and the buffer stays empty. *)
Theorem idle_client_sends_nothing (rt : loki.Env) (c : loki.Client) (w : loki.World)
    (ops : list loki.Op) :
  pkg.entries (loki.buffer c) = [] ->
  forallb (fun op => negb (is_Push op)) ops = true ->
  let s := loki.run_ops rt (c, w) ops in
  loki.http_log (snd s) = loki.http_log w
  /\ loki.diag_log (snd s) = loki.diag_log w
  /\ pkg.entries (loki.buffer (fst s)) = [].
Proof.
  intros He Hops s. subst s. revert c w He.
  induction ops as [|op ops IH]; intros c w He; [now repeat split|].
  simpl in Hops. apply andb_prop in Hops as [Hop Hops].
  change (loki.run_ops rt (c, w) (op :: ops))
    with (loki.run_ops rt (loki.run_op rt (c, w) op) ops).
  assert (Hstep : loki.http_log (snd (loki.run_op rt (c, w) op)) = loki.http_log w
                  /\ loki.diag_log (snd (loki.run_op rt (c, w) op)) = loki.diag_log w
                  /\ pkg.entries (loki.buffer (fst (loki.run_op rt (c, w) op))) = []).
  { destruct op as [message level now| | |ev since now lastFlush]; simpl.
    - discriminate.
    - unfold loki.Start. destruct (loki.started c); now repeat split.
    - unfold loki.Stop. destruct (negb (loki.started c)); [now repeat split|].
      destruct (loki.closed c); [now repeat split|].
      rewrite flush_empty_noop by exact He. now repeat split.
    - unfold loki.worker_turn. destruct ev.
      + destruct (loki.done c); [now repeat split|].
        destruct (since >? 0); [|now repeat split].
        rewrite flush_empty_noop by exact He. now repeat split.
      + destruct (since >=? _); [|now repeat split].
        rewrite flush_empty_noop by exact He. now repeat split. }
  destruct Hstep as (Hh & Hd & Hb).
  rewrite (surjective_pairing (loki.run_op rt (c, w) op)).
  destruct (IH Hops _ (snd (loki.run_op rt (c, w) op)) Hb) as (IH1 & IH2 & IH3).
  rewrite IH1, IH2, IH3, Hh, Hd. now repeat split.
Qed.

Lemma idle_client_sends_nothing_witness :
  let s := loki.run_ops failing_env (demo_client, empty_world)
             [loki.OpStart; loki.OpWorker loki.Tick 20000000000 20 0; loki.OpStop;
              loki.OpWorker loki.DoneSignal 1 21 20] in
  loki.http_log (snd s) = loki.http_log empty_world
  /\ loki.diag_log (snd s) = loki.diag_log empty_world
  /\ pkg.entries (loki.buffer (fst s)) = [].
Proof.
  apply (idle_client_sends_nothing failing_env demo_client empty_world
           [loki.OpStart; loki.OpWorker loki.Tick 20000000000 20 0; loki.OpStop;
            loki.OpWorker loki.DoneSignal 1 21 20]).
  - reflexivity.
  - reflexivity.
Defined.

(** ** The wait times of a new client *)

(** X13: for a minimum wait that is an [int64] below the largest one,
    the maximum wait a new client stores is strictly greater than the
    minimum wait it stores; and when the given minimum wait is not
    negative, both stored waits are positive, so the worker's ticker
    gets a positive period. *)
Theorem NewClient_waits_are_ordered (cfg : loki.ClientConfig) (c : loki.Client) :
  loki.NewClient cfg = inl c ->
  Go.MinInt64 <= loki.MinWaitTime cfg < Go.MaxInt64 ->
  loki.MinWaitTime (loki.config c) < loki.MaxWaitTime (loki.config c)
  /\ (0 <= loki.MinWaitTime cfg ->
      1 <= loki.MinWaitTime (loki.config c) /\ 2 <= loki.MaxWaitTime (loki.config c)).
Proof.
  intros Hnew Hr.
  pose proof (NewClient_max_exceeds_min cfg c Hnew Hr) as Hlt.
  split; [exact Hlt|]. intros Hpos.
  assert (Hmin : 1 <= loki.MinWaitTime (loki.config c)).
  { unfold loki.NewClient in Hnew. destruct (String.eqb _ _); [discriminate|].
    injection Hnew as <-. simpl.
    destruct (Z.eqb_spec (loki.MinWaitTime cfg) 0); lia. }
  split; [exact Hmin|lia].
Qed.

Lemma NewClient_waits_are_ordered_witness :
  loki.MinWaitTime (loki.config demo_client) < loki.MaxWaitTime (loki.config demo_client)
  /\ (0 <= loki.MinWaitTime demo_config ->
      1 <= loki.MinWaitTime (loki.config demo_client)
      /\ 2 <= loki.MaxWaitTime (loki.config demo_client)).
Proof.
  apply (NewClient_waits_are_ordered demo_config demo_client).
  - reflexivity.
  - split; [apply Z.leb_le | apply Z.ltb_lt]; reflexivity.
Defined.

(** ** What a flush leaves in the world, case by case *)

(** X14: the four ways a flush of a non-empty buffer can end, [req]
    being the request built from the buffer and [post] the one HTTP
    request that carries its encoding.  If the request does not encode,
    nothing is sent and one line reports the encoder's error.  If the
    transport fails, [post] was issued and one line reports the
    transport's error.  If the server answers 204, [post] was issued
    and nothing is written.  If it answers anything else, [post] was
    issued and one line reports the status and the body.  In all four
    the batch is gone from the buffer. *)
Theorem flush_outcomes (rt : loki.Env) (c : loki.Client) (w : loki.World) :
  pkg.entries (loki.buffer c) <> [] ->
  let req := flush_request rt c in
  let url := loki.URL (loki.config c) +:+ "/loki/api/v1/push" in
  let post data :=
    loki.mkHttpRequest (loki.httpClient c) "POST" url "application/json" data in
  let answer data := loki.http_Post rt (loki.httpClient c) url "application/json" data in
  let line err := "Failed to send logs to Loki: " +:+ err in
  fst (loki.flush rt c w) = drained c
  /\ (forall err, loki.json_Marshal rt req = inr err ->
        snd (loki.flush rt c w)
        = loki.log_Printf (line ("marshal request failed: " +:+ err)) w)
  /\ (forall data err, loki.json_Marshal rt req = inl data -> answer data = inr err ->
        snd (loki.flush rt c w)
        = loki.log_Printf (line ("send request failed: " +:+ err))
            (loki.log_request (post data) w))
  /\ (forall data body, loki.json_Marshal rt req = inl data ->
        answer data = inl (loki.mkResponse 204 body) ->
        snd (loki.flush rt c w) = loki.log_request (post data) w)
  /\ (forall data code body, loki.json_Marshal rt req = inl data ->
        answer data = inl (loki.mkResponse code body) -> code <> 204 ->
        snd (loki.flush rt c w)
        = loki.log_Printf
            (line ("unexpected status code: " +:+ Go.FormatInt code
                     +:+ ", body: " +:+ body))
            (loki.log_request (post data) w)).
Proof.
  intros Hne req url post answer line.
  split; [apply flush_client|].
  rewrite flush_nonempty by exact Hne. simpl. fold req.
  unfold loki.send. repeat split.
  - intros err ->. reflexivity.
  - intros data err ->. subst answer url. simpl. intros ->. reflexivity.
  - intros data body ->. subst answer url. simpl. intros ->. reflexivity.
  - intros data code body ->. subst answer url. simpl. intros -> Hcode. simpl.
    destruct (Z.eqb_spec code 204); [contradiction|]. reflexivity.
Qed.

Lemma flush_outcomes_witness :
  let req := flush_request failing_env demo_loaded in
  let url := loki.URL (loki.config demo_loaded) +:+ "/loki/api/v1/push" in
  let post data :=
    loki.mkHttpRequest (loki.httpClient demo_loaded) "POST" url "application/json" data in
  let answer data :=
    loki.http_Post failing_env (loki.httpClient demo_loaded) url "application/json" data in
  let line err := "Failed to send logs to Loki: " +:+ err in
  fst (loki.flush failing_env demo_loaded empty_world) = drained demo_loaded
  /\ (forall err, loki.json_Marshal failing_env req = inr err ->
        snd (loki.flush failing_env demo_loaded empty_world)
        = loki.log_Printf (line ("marshal request failed: " +:+ err)) empty_world)
  /\ (forall data err, loki.json_Marshal failing_env req = inl data ->
        answer data = inr err ->
        snd (loki.flush failing_env demo_loaded empty_world)
        = loki.log_Printf (line ("send request failed: " +:+ err))
            (loki.log_request (post data) empty_world))
  /\ (forall data body, loki.json_Marshal failing_env req = inl data ->
        answer data = inl (loki.mkResponse 204 body) ->
        snd (loki.flush failing_env demo_loaded empty_world)
        = loki.log_request (post data) empty_world)
  /\ (forall data code body, loki.json_Marshal failing_env req = inl data ->
        answer data = inl (loki.mkResponse code body) -> code <> 204 ->
        snd (loki.flush failing_env demo_loaded empty_world)
        = loki.log_Printf
            (line ("unexpected status code: " +:+ Go.FormatInt code
                     +:+ ", body: " +:+ body))
            (loki.log_request (post data) empty_world)).
Proof.
  apply (flush_outcomes failing_env demo_loaded empty_world). discriminate.
Defined.

(** ** The wrapper: building, shipping and closing *)




(** A batch size of 2^62 entries: [make] panics, no logger is built. *)
Example NewLogger_huge_batch :
  zap.NewLogger_call
    (zap.mkConfig true false true 0 0 0 true "" 0 0 0 false
       (zap.mkLokiConfig "http://loki:3100" (2 ^ 62) ∅ 0 None)) empty_world
  = None.
Proof. reflexivity. Qed.

Example NewLogger_demo :
  exists b c,
    zap.NewLogger_call demo_zap_config empty_world
    = Some (inl (b, loki.spawn_worker empty_world))
    /\ zap.lokiClient (zap.built_logger b) = Some c
    /\ zap.zap_cores (zap.built_zap b)
       = [zap.mkCore (zap.ConsoleEncoder (zap.ProductionEncoderConfig zap.RFC3339TimeEncoder))
            zap.Stdout 0]
    /\ zap.zap_opts (zap.built_zap b) = [zap.AddCaller; zap.AddCallerSkip 1]
    /\ zap.built_file b = None
    /\ loki.started c = true
    /\ pkg.size (loki.buffer c) = 100.
Proof. eexists. eexists. repeat split. Qed.

(** A submit on a started, open client whose buffer has room for more
    than one entry: dropped below the minimum level, appended from it
    up; no error and no effect on the world either way. *)
Lemma push_with_room (rt : loki.Env) (c : loki.Client) (w : loki.World)
    (message : string) (level : pkg.LogLevel) (now : Z) :
  loki.started c = true ->
  loki.closed c = false ->
  Go.len (pkg.entries (loki.buffer c)) + 1 < pkg.size (loki.buffer c) ->
  loki.pushLogWithLevel rt c w message level now
  = (if level <? loki.MinLevel (loki.config c) then c
     else loki.set_buffer
            (pkg.mkBuffer (pkg.entries (loki.buffer c) ++ [pkg.mkLogEntry now message level])
               (pkg.size (loki.buffer c))) c,
     w, None).
Proof.
  intros Hs Hc Hroom. unfold loki.pushLogWithLevel. rewrite Hs, Hc. simpl.
  destruct (level <? _); [reflexivity|].
  destruct (Z.geb_spec (Go.len (pkg.entries (loki.buffer c)
                                  ++ [pkg.mkLogEntry now message level]))
              (pkg.size (loki.buffer c))) as [Hfull|_]; [|reflexivity].
  unfold Go.len in *. rewrite length_app in Hfull. simpl in Hfull. lia.
Qed.

(** X16: what a wrapper call hands to the client.  On a logger whose
    client is started and open, with room in its buffer, a call whose
    embedded logger call returns (or a [Fatal] call, which ships first)
    leaves the world alone and either appends exactly one entry to the
    client's buffer -- the formatted message, stamped with the clock
    reading, at the level of the method, [DPanic], [Panic] and [Fatal]
    counting as Error -- or, when that level is below the client's
    minimum level, leaves the client as it was. *)
Theorem wrapper_call_buffers_one_entry (Field : Type) (rt : loki.Env) (zrt : zap.Env Field)
    (c : loki.Client) (w : loki.World) (tr : list (zap.Event Field))
    (msg : string) (fields : list Field) (now : Z) (lvl : zap.Level) :
  loki.started c = true ->
  loki.closed c = false ->
  Go.len (pkg.entries (loki.buffer c)) + 1 < pkg.size (loki.buffer c) ->
  zap.local_returns zrt lvl = true \/ lvl = zap.FatalLevel ->
  let st' := zap.log rt zrt lvl msg fields now (zap.mkState (zap.mkLogger (Some c)) w tr) in
  let entry :=
    pkg.mkLogEntry now (zap.formatMessage zrt msg fields) (zap.shipped_level lvl) in
  zap.world st' = w
  /\ zap.lokiClient (zap.logger st')
     = Some (if zap.shipped_level lvl <? loki.MinLevel (loki.config c) then c
             else loki.set_buffer
                    (pkg.mkBuffer (pkg.entries (loki.buffer c) ++ [entry])
                       (pkg.size (loki.buffer c))) c).
Proof.
  intros Hs Hc Hroom Hret st' entry. subst st' entry.
  assert (Hremote : forall submit level tr',
             (forall m n, submit rt c w m n = loki.pushLogWithLevel rt c w m level n) ->
             let st' := zap.call_remote rt zrt submit level msg fields now
                          (zap.mkState (zap.mkLogger (Some c)) w tr') in
             zap.world st' = w
             /\ zap.lokiClient (zap.logger st')
                = Some (if level <? loki.MinLevel (loki.config c) then c
                        else loki.set_buffer
                               (pkg.mkBuffer
                                  (pkg.entries (loki.buffer c)
                                     ++ [pkg.mkLogEntry now (zap.formatMessage zrt msg fields)
                                           level])
                                  (pkg.size (loki.buffer c))) c)).
  { intros submit level tr' Hsub. unfold zap.call_remote. simpl.
    rewrite Hsub, push_with_room by assumption. simpl. now split. }
  destruct lvl; simpl;
    unfold zap.Debug, zap.Info, zap.Warn, zap.Error, zap.DPanic, zap.Panic,
      zap.local_then_remote, zap.call_local; simpl.
  1-6: destruct Hret as [-> | Hf]; [|discriminate]; now apply Hremote.
  unfold zap.Fatal, zap.call_local.
  destruct (Hremote loki.Error pkg.LevelError tr) as [H1 H2]; [reflexivity|].
  simpl in *. now split.
Qed.

Lemma wrapper_call_buffers_one_entry_witness :
  let st' := zap.log demo_env demo_zap_env zap.DPanicLevel "bad" ["{}"%string] 9
               (zap.mkState (zap.mkLogger (Some demo_mixed)) empty_world []) in
  let entry :=
    pkg.mkLogEntry 9 (zap.formatMessage demo_zap_env "bad" ["{}"%string])
      (zap.shipped_level zap.DPanicLevel) in
  zap.world st' = empty_world
  /\ zap.lokiClient (zap.logger st')
     = Some (if zap.shipped_level zap.DPanicLevel <? loki.MinLevel (loki.config demo_mixed)
             then demo_mixed
             else loki.set_buffer
                    (pkg.mkBuffer (pkg.entries (loki.buffer demo_mixed) ++ [entry])
                       (pkg.size (loki.buffer demo_mixed))) demo_mixed).
Proof.
  apply (wrapper_call_buffers_one_entry string demo_env demo_zap_env demo_mixed empty_world []
           "bad" ["{}"%string] 9 zap.DPanicLevel).
  - reflexivity.
  - reflexivity.
  - apply Z.ltb_lt. reflexivity.
  - left. reflexivity.
Defined.

(** X17: [Close] syncs, stops the client and closes the file, in that
    order and whatever [Sync] returned, and returns [Sync]'s error.  On
    a logger whose client is started, the client is closed afterwards;
    from then on a wrapper call at any level changes neither the client
    nor the world -- the client's refusal is discarded, so nothing is
    buffered or sent and the caller sees no error -- and a second
    [Close] changes nothing either. *)
Theorem Close_ends_shipping (Field : Type) (rt : loki.Env) (zrt : zap.Env Field)
    (sync_err : option Go.error) (fileLogger : option zap.Lumberjack)
    (c : loki.Client) (w : loki.World) (tr : list (zap.Event Field)) :
  loki.started c = true ->
  let r := zap.Close rt sync_err fileLogger (zap.mkState (zap.mkLogger (Some c)) w tr) in
  let st' := fst (fst r) in
  snd r = sync_err
  /\ snd (fst r)
     = [zap.StepSync; zap.StepStop]
         ++ match fileLogger with Some _ => [zap.StepFileClose] | None => [] end
  /\ zap.logger st' = zap.mkLogger (Some (fst (loki.Stop rt c w)))
  /\ zap.world st' = snd (loki.Stop rt c w)
  /\ loki.closed (fst (loki.Stop rt c w)) = true
  /\ (forall (lvl : zap.Level) (msg : string) (fields : list Field) (now : Z),
        let st'' := zap.log rt zrt lvl msg fields now st' in
        zap.logger st'' = zap.logger st' /\ zap.world st'' = zap.world st')
  /\ (forall sync_err' fileLogger',
        fst (fst (zap.Close rt sync_err' fileLogger' st')) = st').
Proof.
  intros Hs r st'. subst st' r. unfold zap.Close. simpl.
  rewrite (surjective_pairing (loki.Stop rt c w)). simpl.
  assert (Hclosed : loki.closed (fst (loki.Stop rt c w)) = true).
  { rewrite Stop_closed, Hs. apply orb_true_r. }
  set (c' := fst (loki.Stop rt c w)) in *. set (w' := snd (loki.Stop rt c w)).
  split; [reflexivity|]. split; [now destruct fileLogger|].
  split; [reflexivity|]. split; [reflexivity|]. split; [exact Hclosed|]. split.
  - intros lvl msg fields now.
    assert (Hremote : forall submit level tr',
               In submit [loki.Debug; loki.Info; loki.Warn; loki.Error] ->
               zap.call_remote rt zrt submit level msg fields now
                 (zap.mkState (zap.mkLogger (Some c')) w' tr')
               = zap.mkState (zap.mkLogger (Some c')) w'
                   (tr' ++ [zap.Remote level (zap.formatMessage zrt msg fields)])).
    { intros submit level tr' Hin. destruct (submit_is_push submit Hin) as [l Hl].
      unfold zap.call_remote. simpl. rewrite Hl, push_closed by exact Hclosed.
      reflexivity. }
    destruct lvl; simpl;
      unfold zap.Debug, zap.Info, zap.Warn, zap.Error, zap.DPanic, zap.Panic,
        zap.Fatal, zap.local_then_remote, zap.call_local; simpl;
      try (destruct (zap.local_returns zrt _); [|now split]);
      rewrite Hremote by (simpl; tauto); now split.
  - intros sync_err' fileLogger'.
    assert (Hstop : loki.Stop rt c' w' = (c', w')).
    { unfold loki.Stop. rewrite Hclosed.
      assert (Hs' : loki.started c' = true) by (unfold c'; now rewrite Stop_started).
      rewrite Hs'. simpl. destruct c'. simpl in *. now subst. }
    rewrite Hstop. now destruct fileLogger, fileLogger'.
Qed.

Lemma Close_ends_shipping_witness :
  let r := zap.Close failing_env (Some "sync /dev/stdout: invalid argument"%string) None
             (zap.mkState (Field := string) (zap.mkLogger (Some demo_loaded)) empty_world []) in
  let st' := fst (fst r) in
  snd r = Some "sync /dev/stdout: invalid argument"%string
  /\ snd (fst r) = [zap.StepSync; zap.StepStop] ++ []
  /\ zap.logger st' = zap.mkLogger (Some (fst (loki.Stop failing_env demo_loaded empty_world)))
  /\ zap.world st' = snd (loki.Stop failing_env demo_loaded empty_world)
  /\ loki.closed (fst (loki.Stop failing_env demo_loaded empty_world)) = true
  /\ (forall (lvl : zap.Level) (msg : string) (fields : list string) (now : Z),
        let st'' := zap.log failing_env demo_zap_env lvl msg fields now st' in
        zap.logger st'' = zap.logger st' /\ zap.world st'' = zap.world st')
  /\ (forall sync_err' fileLogger',
        fst (fst (zap.Close failing_env sync_err' fileLogger' st')) = st').
Proof.
  apply (Close_ends_shipping string failing_env demo_zap_env
           (Some "sync /dev/stdout: invalid argument"%string) None
           demo_loaded empty_world []).
  reflexivity.
Defined.

(** ** The worker's tick and the lifecycle flags *)

(** X18: for a maximum wait of at most 9223372036 seconds (beyond which
    the period in nanoseconds no longer fits an [int64]), a tick of the
    worker that comes before the maximum wait has elapsed since the last
    flush changes nothing -- client, world and the time of the last
    flush stay as they are -- and a tick that comes at or after it
    flushes and records the clock's reading as the time of the last
    flush. *)
Theorem worker_tick_waits_for_period (rt : loki.Env) (c : loki.Client) (w : loki.World)
    (since now lastFlush : Z) :
  0 <= loki.MaxWaitTime (loki.config c) <= 9223372036 ->
  let period := loki.Second * loki.MaxWaitTime (loki.config c) in
  (since < period ->
   loki.worker_turn rt loki.Tick since now lastFlush c w = (c, w, Some lastFlush))
  /\ (period <= since ->
      loki.worker_turn rt loki.Tick since now lastFlush c w
      = (fst (loki.flush rt c w), snd (loki.flush rt c w), Some now)).
Proof.
  intros Hr period. unfold loki.worker_turn.
  rewrite wrap64_in_range
    by (unfold Go.MinInt64, Go.MaxInt64, loki.Second; lia).
  fold period. split; intros H.
  - destruct (Z.geb_spec since period); [lia|reflexivity].
  - destruct (Z.geb_spec since period); [|lia].
    now rewrite (surjective_pairing (loki.flush rt c w)).
Qed.

Lemma worker_tick_waits_for_period_witness :
  let period := loki.Second * loki.MaxWaitTime (loki.config demo_loaded) in
  (9999999999 < period ->
   loki.worker_turn demo_env loki.Tick 9999999999 50 40 demo_loaded empty_world
   = (demo_loaded, empty_world, Some 40))
  /\ (period <= 9999999999 ->
      loki.worker_turn demo_env loki.Tick 9999999999 50 40 demo_loaded empty_world
      = (fst (loki.flush demo_env demo_loaded empty_world),
         snd (loki.flush demo_env demo_loaded empty_world), Some 50)).
Proof.
  apply (worker_tick_waits_for_period demo_env demo_loaded empty_world 9999999999 50 40).
  split; apply Z.leb_le; reflexivity.
Defined.

(** Past that bound the period wraps around: with a maximum wait of
    9223372037 seconds it is negative, and every tick flushes. *)
Example worker_tick_period_wraps :
  Go.wrap64 (loki.Second * 9223372037) = -9223372036709551616.
Proof. reflexivity. Qed.

(** X19: the two lifecycle flags only ever go up.  Along any run of
    operations, from any state of the client, a set [started] stays set
    and a set [closed] stays set; and on a client that began as a new
    one, [closed] is never set without [started]. *)
Theorem lifecycle_flags_only_go_up (rt : loki.Env) (cfg : loki.ClientConfig)
    (c : loki.Client) (w : loki.World) (ops1 ops2 : list loki.Op) :
  loki.NewClient cfg = inl c ->
  let s1 := loki.run_ops rt (c, w) ops1 in
  let s2 := loki.run_ops rt (c, w) (ops1 ++ ops2) in
  (loki.started (fst s1) = true -> loki.started (fst s2) = true)
  /\ (loki.closed (fst s1) = true -> loki.closed (fst s2) = true)
  /\ (loki.closed (fst s2) = true -> loki.started (fst s2) = true).
Proof.
  intros Hnew s1 s2. subst s1 s2. rewrite run_ops_app.
  split; [apply run_ops_started_mono|]. split; [apply run_ops_closed_mono|].
  rewrite <- run_ops_app.
  destruct (NewClient_flags cfg c Hnew) as (Hs & Hc & _).
  induction (ops1 ++ ops2) as [|op ops IH] using rev_ind.
  - simpl. congruence.
  - rewrite run_ops_snoc, run_op_closed, run_op_started.
    destruct op; try exact IH; [reflexivity|].
    destruct (loki.closed (fst (loki.run_ops rt (c, w) ops))); simpl; [auto|auto].
Qed.

Lemma lifecycle_flags_only_go_up_witness :
  let s1 := loki.run_ops demo_env (demo_client, empty_world) [loki.OpStart; loki.OpStop] in
  let s2 := loki.run_ops demo_env (demo_client, empty_world)
              ([loki.OpStart; loki.OpStop] ++ [loki.OpStart; loki.OpPush "a" pkg.LevelInfo 1]) in
  (loki.started (fst s1) = true -> loki.started (fst s2) = true)
  /\ (loki.closed (fst s1) = true -> loki.closed (fst s2) = true)
  /\ (loki.closed (fst s2) = true -> loki.started (fst s2) = true).
Proof.
  apply (lifecycle_flags_only_go_up demo_env demo_config demo_client empty_world
           [loki.OpStart; loki.OpStop] [loki.OpStart; loki.OpPush "a" pkg.LevelInfo 1]).
  reflexivity.
Defined.

(** ** The package-level logger *)


(** With console output enabled and a [Sync] that fails (as it does on
    a terminal's standard output), the log file stays open. *)
Example package_Close_sync_failure :
  let env := btlog.mkEnv (fun _ => Some "sync /dev/stdout: invalid argument"%string)
               (fun _ => None) in
  let cfg := btlog.mkConfig true 0 0 true "./logs/app.log" 100 3 28 true in
  exists l,
    btlog.Close env (fst (btlog.InitLogger cfg btlog.uninitialised))
    = ([btlog.Synced l], Some "sync /dev/stdout: invalid argument"%string).
Proof. eexists. reflexivity. Qed.
